(** * Universal Quantum Notebook: the session state of [components/Notebook.tsx]

    A shallow embedding of the [Notebook] provider component: the cell
    store, the notification queue, the selection state and the callbacks
    the provider publishes through [NotebookContext] ([addNotification],
    [updateCell], [executeCell], [addCell], [deleteCell], [moveCell],
    [runAllCells], [saveNotebook], [loadNotebook]).

    React state hooks become fields of a [Session] record, the callbacks
    become actions of a small state monad over it, [setTimeout] becomes a
    queue of pending timers whose callbacks are kept as data, and the two
    sources of non-determinism of [generateUniqueId] ([Date.now()] and
    [Math.random()]) become a clock and an oracle held by the session. *)

From Stdlib Require Import List String Ascii Bool ZArith NArith Lia DecimalString.
From Stdlib Require Import Sorted.
From Stdlib Require DecimalN.
Import ListNotations.
Open Scope string_scope.
Open Scope list_scope.

Set Warnings "-register-all".

Module Notebook.

(** ** 1. Types and interfaces *)

(** A value of TypeScript type [any] (cell content, metadata values,
    execution outputs). *)
Inductive Any : Type :=
| AUndefined
| ANull
| ABool (b : bool)
| ANum (n : Z)
| AStr (s : string)
| AArr (items : list Any)
| AObj (props : list (string * Any)).

Inductive ExpandedCellType : Type :=
| Code | Markdown | Data | Visualization | AIChat | SQL | Drawing | Form
| WebComponent | FileBrowser | Terminal | Embed | Timeline | Map | Audio | Video.

(** The string each member of the [ExpandedCellType] enum stands for. *)
Definition cellTypeValue (t : ExpandedCellType) : string :=
  match t with
  | Code => "code"
  | Markdown => "markdown"
  | Data => "data"
  | Visualization => "visualization"
  | AIChat => "ai_chat"
  | SQL => "sql"
  | Drawing => "drawing"
  | Form => "form"
  | WebComponent => "web_component"
  | FileBrowser => "file_browser"
  | Terminal => "terminal"
  | Embed => "embed"
  | Timeline => "timeline"
  | Map => "map"
  | Audio => "audio"
  | Video => "video"
  end.

(** [status?: 'idle' | 'running' | 'error' | 'success' | 'queued'] *)
Inductive CellStatus : Type := SIdle | SRunning | SError | SSuccess | SQueued.

(** [visibility?: 'public' | 'private' | 'restricted' | 'team'] *)
Inductive Visibility : Type := VPublic | VPrivate | VRestricted | VTeam.

Inductive CellComment : Type :=
| MkCellComment (commentId commentAuthor commentTimestamp text : string)
                (resolved : option bool) (replies : option (list CellComment)).

Record Collaborator : Type := {
  collaboratorId : string;
  cursor : option (Z * Z)
}.

Record ExecutionTime : Type := {
  start : string;
  end_ : string;
  durationMs : Z
}.

(** [EnhancedCell]. An optional property is an [option]; [None] is the
    property being absent or [undefined]. *)
Record EnhancedCell : Type := {
  id : string;
  type : ExpandedCellType;
  content : Any;
  metadata : option (list (string * Any));
  outputs : option (list Any);
  executionCount : option Z;
  status : option CellStatus;
  language : option string;
  comments : option (list CellComment);
  collaborators : option (list Collaborator);
  executionTime : option ExecutionTime;
  author : option string;
  visibility : option Visibility;
  lastModified : option string;
  createdAt : option string
}.

(** [Partial<EnhancedCell>]: [None] is a key that is not in the object,
    [Some v] a key that is, with value [v] (for an optional property [v] is
    itself an [option], [Some None] being an explicit [undefined]). *)
Record CellUpdates : Type := {
  u_id : option string;
  u_type : option ExpandedCellType;
  u_content : option Any;
  u_metadata : option (option (list (string * Any)));
  u_outputs : option (option (list Any));
  u_executionCount : option (option Z);
  u_status : option (option CellStatus);
  u_language : option (option string);
  u_comments : option (option (list CellComment));
  u_collaborators : option (option (list Collaborator));
  u_executionTime : option (option ExecutionTime);
  u_author : option (option string);
  u_visibility : option (option Visibility);
  u_lastModified : option (option string);
  u_createdAt : option (option string)
}.

(** The empty object [{}] as a [Partial<EnhancedCell>]. *)
Definition noUpdates : CellUpdates :=
  {| u_id := None; u_type := None; u_content := None; u_metadata := None;
     u_outputs := None; u_executionCount := None; u_status := None;
     u_language := None; u_comments := None; u_collaborators := None;
     u_executionTime := None; u_author := None; u_visibility := None;
     u_lastModified := None; u_createdAt := None |}.

Inductive NotificationType : Type :=
| NInfo | NWarning | NError | NSuccess | NSystem | NCollaborator.

(** [Notification]. The fields [id], [type] carry a prefix, the cell has
    the plain names. [timestamp] holds the instant (milliseconds of
    [Date.now()]) whose ISO rendering the source stores. *)
Record Notification : Type := {
  notificationId : string;
  notificationType : NotificationType;
  message : string;
  timestamp : N;
  read : bool;
  source : option string
}.

(** [Omit<Notification, 'id' | 'timestamp' | 'read'>] *)
Record NotificationInput : Type := {
  in_type : NotificationType;
  in_message : string;
  in_source : option string
}.

Inductive SidebarPanel : Type := Outline | Variables | Files | Plugins.

(** ** 2. The session: React state, timers, clock and randomness *)

(** What a pending [setTimeout] will run. The closure of the source is kept
    as data: the auto-dismiss callback of [addNotification], and the
    completion callback of [executeCell] together with the [cellId] and the
    [cells] array it closes over. *)
Inductive TimerCallback : Type :=
| AutoDismiss
| CompleteExecution (cellId : string) (capturedCells : list EnhancedCell).

Record Timer : Type := {
  due : N;
  callback : TimerCallback
}.

Record Session : Type := {
  cells : list EnhancedCell;
  activeCellId : option string;
  notifications : list Notification;
  commandPaletteOpen : bool;
  aiAssistantOpen : bool;
  globalSearchTerm : string;
  activeSidebarPanel : SidebarPanel;
  (* the environment of the component *)
  timers : list Timer;          (* pending timeouts, in creation order *)
  clock : N;                    (* Date.now() *)
  random : nat -> string;       (* k-th Math.random().toString(36).substring(2, 9) *)
  draws : nat                   (* how many random numbers were drawn *)
}.

(** A small state monad over the session. *)
Definition Action (A : Type) : Type := Session -> A * Session.

Definition ret {A} (a : A) : Action A := fun st => (a, st).

Definition bind {A B} (m : Action A) (k : A -> Action B) : Action B :=
  fun st => let (a, st') := m st in k a st'.

Definition exec {A} (m : Action A) (st : Session) : Session := snd (m st).

Notation "x <- m ;; k" := (bind m (fun x => k))
  (at level 61, m at next level, right associativity).
Notation "m ;; k" := (bind m (fun _ => k))
  (at level 61, right associativity).

(** The setters of the state hooks, with a functional updater where the
    source passes one. *)
Definition setCells (f : list EnhancedCell -> list EnhancedCell) : Action unit :=
  fun st => (tt,
    {| cells := f (cells st); activeCellId := activeCellId st;
       notifications := notifications st;
       commandPaletteOpen := commandPaletteOpen st;
       aiAssistantOpen := aiAssistantOpen st;
       globalSearchTerm := globalSearchTerm st;
       activeSidebarPanel := activeSidebarPanel st;
       timers := timers st; clock := clock st;
       random := random st; draws := draws st |}).

Definition setActiveCellId (v : option string) : Action unit :=
  fun st => (tt,
    {| cells := cells st; activeCellId := v;
       notifications := notifications st;
       commandPaletteOpen := commandPaletteOpen st;
       aiAssistantOpen := aiAssistantOpen st;
       globalSearchTerm := globalSearchTerm st;
       activeSidebarPanel := activeSidebarPanel st;
       timers := timers st; clock := clock st;
       random := random st; draws := draws st |}).

Definition setNotifications (f : list Notification -> list Notification) : Action unit :=
  fun st => (tt,
    {| cells := cells st; activeCellId := activeCellId st;
       notifications := f (notifications st);
       commandPaletteOpen := commandPaletteOpen st;
       aiAssistantOpen := aiAssistantOpen st;
       globalSearchTerm := globalSearchTerm st;
       activeSidebarPanel := activeSidebarPanel st;
       timers := timers st; clock := clock st;
       random := random st; draws := draws st |}).

Definition setActiveSidebarPanel (p : SidebarPanel) : Action unit :=
  fun st => (tt,
    {| cells := cells st; activeCellId := activeCellId st;
       notifications := notifications st;
       commandPaletteOpen := commandPaletteOpen st;
       aiAssistantOpen := aiAssistantOpen st;
       globalSearchTerm := globalSearchTerm st;
       activeSidebarPanel := p;
       timers := timers st; clock := clock st;
       random := random st; draws := draws st |}).

(** [setTimeout(cb, delay)]: the timer is due [delay] ms from now and is
    queued behind the timers created before it. *)
Definition setTimeout (cb : TimerCallback) (delay : N) : Action unit :=
  fun st => (tt,
    {| cells := cells st; activeCellId := activeCellId st;
       notifications := notifications st;
       commandPaletteOpen := commandPaletteOpen st;
       aiAssistantOpen := aiAssistantOpen st;
       globalSearchTerm := globalSearchTerm st;
       activeSidebarPanel := activeSidebarPanel st;
       timers := timers st ++ [{| due := (clock st + delay)%N; callback := cb |}];
       clock := clock st;
       random := random st; draws := draws st |}).

(** [Date.now()] *)
Definition dateNow : Action N := fun st => (clock st, st).

(** [Math.random().toString(36).substring(2, 9)] *)
Definition mathRandom : Action string :=
  fun st => (random st (draws st),
    {| cells := cells st; activeCellId := activeCellId st;
       notifications := notifications st;
       commandPaletteOpen := commandPaletteOpen st;
       aiAssistantOpen := aiAssistantOpen st;
       globalSearchTerm := globalSearchTerm st;
       activeSidebarPanel := activeSidebarPanel st;
       timers := timers st; clock := clock st;
       random := random st; draws := S (draws st) |}).

(** ** 3. Helper functions *)

Definition decimal (n : N) : string := NilEmpty.string_of_uint (N.to_uint n).

(** [`${prefix}-${Date.now()}-${Math.random().toString(36).substring(2, 9)}`] *)
Definition generateUniqueId (prefix : string) : Action string :=
  t <- dateNow ;;
  r <- mathRandom ;;
  ret (prefix ++ "-" ++ decimal t ++ "-" ++ r)%string.

(** [Array.prototype.includes] on strings. *)
Definition includes (l : list string) (s : string) : bool :=
  existsb (String.eqb s) l.

(** [Array.prototype.find] with the predicate [c => c.id === cellId]. *)
Definition findCell (cellId : string) (l : list EnhancedCell) : option EnhancedCell :=
  find (fun c => String.eqb (id c) cellId) l.

(** [forEach] with a callback that acts on the session. *)
Fixpoint forEach {A} (l : list A) (f : A -> Action unit) : Action unit :=
  match l with
  | [] => ret tt
  | x :: rest => f x ;; forEach rest f
  end.

(** The spread of one property: a key of [updates] replaces the cell's. *)
Definition override {A} (u : option A) (old : A) : A :=
  match u with
  | Some v => v
  | None => old
  end.

(** [{ ...c, ...updates }] *)
Definition spread (c : EnhancedCell) (u : CellUpdates) : EnhancedCell :=
  {| id := override (u_id u) (id c);
     type := override (u_type u) (type c);
     content := override (u_content u) (content c);
     metadata := override (u_metadata u) (metadata c);
     outputs := override (u_outputs u) (outputs c);
     executionCount := override (u_executionCount u) (executionCount c);
     status := override (u_status u) (status c);
     language := override (u_language u) (language c);
     comments := override (u_comments u) (comments c);
     collaborators := override (u_collaborators u) (collaborators c);
     executionTime := override (u_executionTime u) (executionTime c);
     author := override (u_author u) (author c);
     visibility := override (u_visibility u) (visibility c);
     lastModified := override (u_lastModified u) (lastModified c);
     createdAt := override (u_createdAt u) (createdAt c) |}.

(** The "Run Cell" control of [CellControls] is rendered when
    [['code', 'ai_chat', 'sql', 'form'].includes(cellType)]. *)
Definition runCellVisible (t : ExpandedCellType) : bool :=
  includes ["code"; "ai_chat"; "sql"; "form"] (cellTypeValue t).

(** ** 6. Main notebook logic: the callbacks of the provider *)

Definition addNotification (n : NotificationInput) : Action unit :=
  (newId <- generateUniqueId "notif" ;;
   t <- dateNow ;;
   setNotifications (fun prev => prev ++
     [{| notificationId := newId; timestamp := t; read := false;
         notificationType := in_type n; message := in_message n;
         source := in_source n |}])) ;;
  setTimeout AutoDismiss 5000.

Definition updateCell (cellId : string) (updates : CellUpdates)
    (pushToHistory : bool) : Action unit :=
  setCells (fun prev =>
    map (fun c => if String.eqb (id c) cellId then spread c updates else c) prev).

(** [{ status: 'running' }] *)
Definition runningUpdates : CellUpdates :=
  {| u_id := None; u_type := None; u_content := None; u_metadata := None;
     u_outputs := None; u_executionCount := None;
     u_status := Some (Some SRunning);
     u_language := None; u_comments := None; u_collaborators := None;
     u_executionTime := None; u_author := None; u_visibility := None;
     u_lastModified := None; u_createdAt := None |}.

Definition mockOutput : Any :=
  AObj [("type", AStr "stream"); ("name", AStr "stdout");
        ("text", AStr ("Execution completed successfully."
                       ++ String "010"%char "[Result]: 42")%string)].

(** [x?.executionCount || 0], for [x] the result of [find]. *)
Definition executionCountOrZero (c : option EnhancedCell) : Z :=
  match c with
  | Some c' => match executionCount c' with
               | Some n => n
               | None => 0%Z
               end
  | None => 0%Z
  end.

(** The object the completion callback of [executeCell] passes to
    [updateCell]. *)
Definition completionUpdates (cellId : string) (capturedCells : list EnhancedCell)
    : CellUpdates :=
  {| u_id := None; u_type := None; u_content := None; u_metadata := None;
     u_outputs := Some (Some [mockOutput]);
     u_executionCount :=
       Some (Some (executionCountOrZero (findCell cellId capturedCells) + 1)%Z);
     u_status := Some (Some SSuccess);
     u_language := None; u_comments := None; u_collaborators := None;
     u_executionTime := Some (Some {| start := ""; end_ := ""; durationMs := 450 |});
     u_author := None; u_visibility := None;
     u_lastModified := None; u_createdAt := None |}.

(** [executeCell] is rebuilt on every render with the [cells] of that
    render in its closure: that array is the first argument here. *)
Definition executeCell (capturedCells : list EnhancedCell) (cellId : string)
    : Action unit :=
  updateCell cellId runningUpdates false ;;
  addNotification {| in_type := NInfo; in_message := "Executing cell...";
                     in_source := None |} ;;
  setTimeout (CompleteExecution cellId capturedCells) 800.

Definition addCell (type_ : ExpandedCellType) (content_ : Any)
    (index : option Z) (metadata_ : option (list (string * Any))) : Action unit :=
  newId <- generateUniqueId "cell" ;;
  let newCell :=
    {| id := newId; type := type_; content := content_;
       metadata := Some (match metadata_ with Some m => m | None => [] end);
       outputs := Some []; executionCount := Some 0%Z; status := Some SIdle;
       language := None; comments := Some []; collaborators := None;
       executionTime := None; author := None; visibility := None;
       lastModified := None; createdAt := None |} in
  setCells (fun prev => prev ++ [newCell]) ;;
  setActiveCellId (Some (id newCell)) ;;
  addNotification {| in_type := NInfo;
                     in_message := ("Added " ++ cellTypeValue type_ ++ " cell")%string;
                     in_source := None |}.

Definition deleteCell (cellId : string) : Action unit :=
  setCells (fun prev => filter (fun c => negb (String.eqb (id c) cellId)) prev) ;;
  addNotification {| in_type := NInfo; in_message := "Cell deleted";
                     in_source := None |}.

Definition moveCell (from to : Z) : Action unit := ret tt.

(** [runAllCells] closes over the [cells] of its render and over the
    [executeCell] of the same render. *)
Definition runAllCells (capturedCells : list EnhancedCell) : Action unit :=
  addNotification {| in_type := NInfo; in_message := "Running all cells...";
                     in_source := None |} ;;
  forEach capturedCells (fun c =>
    if includes ["code"; "sql"] (cellTypeValue (type c))
    then executeCell capturedCells (id c)
    else ret tt).

Definition saveNotebook : Action unit :=
  addNotification {| in_type := NSuccess; in_message := "Notebook Saved";
                     in_source := None |}.

Definition loadNotebook (notebookId : string) : Action unit := ret tt.

Definition undo : Action unit := ret tt.
Definition redo : Action unit := ret tt.

Definition toggleSidebarPanel (p : SidebarPanel) : Action unit :=
  setActiveSidebarPanel p.

(** ** The context value of one render *)

(** The members of [NotebookContextType] that read or change the session.
    [contextValue st] is what a render of the provider in state [st] hands
    to the presentation surfaces. *)
Record NotebookContextType : Type := {
  ctx_cells : list EnhancedCell;
  ctx_activeCellId : option string;
  ctx_setActiveCellId : option string -> Action unit;
  ctx_notifications : list Notification;
  ctx_addNotification : NotificationInput -> Action unit;
  ctx_executeCell : string -> Action unit;
  ctx_updateCell : string -> CellUpdates -> bool -> Action unit;
  ctx_addCell : ExpandedCellType -> Any -> option Z ->
                option (list (string * Any)) -> Action unit;
  ctx_deleteCell : string -> Action unit;
  ctx_moveCell : Z -> Z -> Action unit;
  ctx_runAllCells : Action unit;
  ctx_undo : Action unit;
  ctx_redo : Action unit;
  ctx_saveNotebook : Action unit;
  ctx_loadNotebook : string -> Action unit;
  ctx_toggleSidebarPanel : SidebarPanel -> Action unit;
  ctx_activeSidebarPanel : SidebarPanel
}.

Definition contextValue (st : Session) : NotebookContextType :=
  {| ctx_cells := cells st;
     ctx_activeCellId := activeCellId st;
     ctx_setActiveCellId := setActiveCellId;
     ctx_notifications := notifications st;
     ctx_addNotification := addNotification;
     ctx_executeCell := executeCell (cells st);
     ctx_updateCell := updateCell;
     ctx_addCell := addCell;
     ctx_deleteCell := deleteCell;
     ctx_moveCell := moveCell;
     ctx_runAllCells := runAllCells (cells st);
     ctx_undo := undo;
     ctx_redo := redo;
     ctx_saveNotebook := saveNotebook;
     ctx_loadNotebook := loadNotebook;
     ctx_toggleSidebarPanel := toggleSidebarPanel;
     ctx_activeSidebarPanel := activeSidebarPanel st |}.

(** A presentation surface calls a member of the context it was rendered
    with; the session it leaves behind. *)
Definition call (op : NotebookContextType -> Action unit) (st : Session) : Session :=
  exec (op (contextValue st)) st.

(** ** Timers *)

(** What a timer does when it fires. *)
Definition fire (cb : TimerCallback) : Action unit :=
  match cb with
  | AutoDismiss => setNotifications (fun prev => skipn 1 prev)
  | CompleteExecution cellId capturedCells =>
      updateCell cellId (completionUpdates cellId capturedCells) false
  end.

(** Timers fire by due time, and in creation order when due together. *)
Fixpoint insertTimer (x : Timer) (sorted : list Timer) : list Timer :=
  match sorted with
  | [] => [x]
  | y :: rest =>
      if (due x <=? due y)%N then x :: y :: rest else y :: insertTimer x rest
  end.

Definition firingOrder (l : list Timer) : list Timer :=
  fold_right insertTimer [] l.

Definition isDue (t : N) (x : Timer) : bool := (due x <=? t)%N.

(** Time passes until the clock reads [t]: every timer due by then fires,
    the others stay queued. No callback of this component sets a timer. *)
Definition fireAll (l : list Timer) (st : Session) : Session :=
  fold_left (fun s x => exec (fire (callback x)) s) l st.

Definition advance (t : N) (st : Session) : Session :=
  fireAll (firingOrder (filter (isDue t) (timers st)))
    {| cells := cells st; activeCellId := activeCellId st;
       notifications := notifications st;
       commandPaletteOpen := commandPaletteOpen st;
       aiAssistantOpen := aiAssistantOpen st;
       globalSearchTerm := globalSearchTerm st;
       activeSidebarPanel := activeSidebarPanel st;
       timers := filter (fun x => negb (isDue t x)) (timers st);
       clock := N.max (clock st) t;
       random := random st; draws := draws st |}.

(** ** The first render *)

Definition blankSession (t0 : N) (rnd : nat -> string) : Session :=
  {| cells := []; activeCellId := None; notifications := [];
     commandPaletteOpen := false; aiAssistantOpen := false;
     globalSearchTerm := ""; activeSidebarPanel := Outline;
     timers := []; clock := t0; random := rnd; draws := 0 |}.

Definition bareCell (id_ : string) (type_ : ExpandedCellType) (content_ : Any)
    (status_ : option CellStatus) (executionCount_ : option Z) : EnhancedCell :=
  {| id := id_; type := type_; content := content_; metadata := Some [];
     outputs := None; executionCount := executionCount_; status := status_;
     language := None; comments := Some []; collaborators := None;
     executionTime := None; author := None; visibility := None;
     lastModified := None; createdAt := None |}.

Definition welcomeContent : Any :=
  AStr ("# Universal Notebook" ++ String "010"%char
        "Welcome to the future of interactive computing.")%string.

Definition helloWorldContent : Any :=
  AObj [("code", AStr ("print(" ++ String "034"%char
                       ("Hello World" ++ String "034"%char ")"))%string);
        ("language", AStr "python")].

Definition tableContent : Any :=
  AObj [("data", AArr [AArr [AStr "ID"; AStr "Name"];
                       AArr [ANum 1; AStr "Alpha"];
                       AArr [ANum 2; AStr "Beta"]]);
        ("columns", AArr [AStr "ID"; AStr "Name"])].

Definition promptContent : Any := AObj [("prompt", AStr "")].

(** The initial value of the [cells] state. *)
Definition initialCells : Action (list EnhancedCell) :=
  id1 <- generateUniqueId "cell" ;;
  id2 <- generateUniqueId "cell" ;;
  id3 <- generateUniqueId "cell" ;;
  id4 <- generateUniqueId "cell" ;;
  ret [ bareCell id1 Markdown welcomeContent None None;
        bareCell id2 Code helloWorldContent (Some SIdle) (Some 1%Z);
        bareCell id3 Data tableContent None None;
        bareCell id4 AIChat promptContent (Some SIdle) None ].

(** The session after the component has mounted at time [t0]: the four
    initial cells, the first of them active ([cells[0]?.id || null]). *)
Definition mount (t0 : N) (rnd : nat -> string) : Session :=
  let (cs, st) := initialCells (blankSession t0 rnd) in
  exec (setActiveCellId (match cs with c :: _ => Some (id c) | [] => None end))
       (exec (setCells (fun _ => cs)) st).

(** ** Definitions that follow the specification's words *)

(** Spec, 4.1: "inserts at that position, shifting subsequent cells". *)
Definition specInsertAt {A} (index : nat) (x : A) (l : list A) : list A :=
  firstn index l ++ x :: skipn index l.

(** Spec, 4.1: "relocates the cell at fromIndex to toIndex, preserving
    relative order of all other cells". *)
Definition specMove {A} (fromIndex toIndex : nat) (l : list A) : list A :=
  match nth_error l fromIndex with
  | Some x => specInsertAt toIndex x (firstn fromIndex l ++ skipn (S fromIndex) l)
  | None => l
  end.

(** The cell ids of the executions that are pending in a timer queue, in
    the order they were dispatched. *)
Definition executionsScheduled (l : list Timer) : list string :=
  flat_map (fun x => match callback x with
                     | CompleteExecution cellId _ => [cellId]
                     | AutoDismiss => []
                     end) l.

(** A session used in the examples: mounted at a fixed instant, with a
    counter in place of the random digits. *)
Definition sampleRandom (k : nat) : string := ("r" ++ decimal (N.of_nat k))%string.
Definition sampleSession : Session := mount 1700000000000 sampleRandom.

Definition sampleMarkdownCell : EnhancedCell :=
  bareCell "cell-1700000000000-r0" Markdown welcomeContent None None.
Definition sampleCodeCell : EnhancedCell :=
  bareCell "cell-1700000000000-r1" Code helloWorldContent (Some SIdle) (Some 1%Z).
Definition sampleDataCell : EnhancedCell :=
  bareCell "cell-1700000000000-r2" Data tableContent None None.
Definition sampleChatCell : EnhancedCell :=
  bareCell "cell-1700000000000-r3" AIChat promptContent (Some SIdle) None.

(** The notification [addNotification n] builds in session [st]. *)
Definition notificationOf (st : Session) (n : NotificationInput) : Notification :=
  {| notificationId :=
       ("notif-" ++ decimal (clock st) ++ "-" ++ random st (draws st))%string;
     notificationType := in_type n; message := in_message n;
     timestamp := clock st; read := false; source := in_source n |}.

(** [{ type: 'info', message: msg }] *)
Definition info (msg : string) : NotificationInput :=
  {| in_type := NInfo; in_message := msg; in_source := None |}.

(** A cell with its status replaced by [running], every other property as
    it was. *)
Definition markedRunning (c : EnhancedCell) : EnhancedCell :=
  {| id := id c; type := type c; content := content c; metadata := metadata c;
     outputs := outputs c; executionCount := executionCount c;
     status := Some SRunning;
     language := language c; comments := comments c;
     collaborators := collaborators c; executionTime := executionTime c;
     author := author c; visibility := visibility c;
     lastModified := lastModified c; createdAt := createdAt c |}.


(** The guard of [runAllCells], on the enum. *)
Definition isCodeOrSql (t : ExpandedCellType) : bool :=
  match t with
  | Code | SQL => true
  | _ => false
  end.


(** The cell [addCell] builds in session [st]. *)
Definition newCellOf (st : Session) (type_ : ExpandedCellType) (content_ : Any)
    (metadata_ : option (list (string * Any))) : EnhancedCell :=
  {| id := ("cell-" ++ decimal (clock st) ++ "-" ++ random st (draws st))%string;
     type := type_; content := content_;
     metadata := Some (match metadata_ with Some m => m | None => [] end);
     outputs := Some []; executionCount := Some 0%Z; status := Some SIdle;
     language := None; comments := Some []; collaborators := None;
     executionTime := None; author := None; visibility := None;
     lastModified := None; createdAt := None |}.



(** [{ content: c }], the update the cell renderers commit. *)
Definition contentUpdate (c : Any) : CellUpdates :=
  {| u_id := None; u_type := None; u_content := Some c; u_metadata := None;
     u_outputs := None; u_executionCount := None; u_status := None;
     u_language := None; u_comments := None; u_collaborators := None;
     u_executionTime := None; u_author := None; u_visibility := None;
     u_lastModified := None; u_createdAt := None |}.

(** How many of the timers of [l] are auto-dismiss timers. *)
Definition isDismissal (x : Timer) : bool :=
  match callback x with
  | AutoDismiss => true
  | CompleteExecution _ _ => false
  end.

Definition dismissals (l : list Timer) : nat := List.length (filter isDismissal l).

(** Time passes until the clock reads [t], then [addNotification n] is
    called. *)
Definition pushAt (t : N) (n : NotificationInput) (st : Session) : Session :=
  exec (addNotification n) (advance t st).

(** ** Objects of type [any] *)

(** The first property named [k], if any. An object holds a key once. *)
Fixpoint lookupProp (k : string) (props : list (string * Any)) : option Any :=
  match props with
  | [] => None
  | (k', v) :: rest => if String.eqb k' k then Some v else lookupProp k rest
  end.





(** ** Helper functions on text *)

(** From here on a string stands for a JavaScript string whose code
    units are all below 256, one [ascii] per code unit. *)

(** [\s] in a regular expression, and the characters [trim] strips: tab,
    line feed, vertical tab, form feed, carriage return, space, no-break
    space. *)
Definition isWhiteSpace (a : ascii) : bool :=
  let n := nat_of_ascii a in
  Nat.eqb n 9 || Nat.eqb n 10 || Nat.eqb n 11 || Nat.eqb n 12 ||
  Nat.eqb n 13 || Nat.eqb n 32 || Nat.eqb n 160.

(** [.] in a regular expression matches every character but a line feed
    and a carriage return. *)
Definition isLineTerminator (a : ascii) : bool :=
  let n := nat_of_ascii a in Nat.eqb n 10 || Nat.eqb n 13.

(** [s.split(sep)] for a separator of one character. *)
Fixpoint splitOn (sep : ascii) (s : string) : list string :=
  match s with
  | EmptyString => [EmptyString]
  | String c rest =>
      if Ascii.eqb c sep then EmptyString :: splitOn sep rest
      else match splitOn sep rest with
           | piece :: pieces => String c piece :: pieces
           | [] => [String c EmptyString]
           end
  end.

Fixpoint allChars (p : ascii -> bool) (s : string) : bool :=
  match s with
  | EmptyString => true
  | String c rest => p c && allChars p rest
  end.

(** The [#] characters a line starts with, counted, and what follows. *)
Fixpoint leadingHashes (s : string) : nat * string :=
  match s with
  | EmptyString => (0, EmptyString)
  | String c rest =>
      if Ascii.eqb c "#"
      then let (k, after) := leadingHashes rest in (S k, after)
      else (0, s)
  end.

(** [line.match(/^(#+)\s(.+)$/)]: the length of the first group and the
    second group. The first group can only be all the leading [#], since
    what follows a shorter run is a [#] and no [\s]; the second group has to
    reach the end of the line and holds no line terminator. *)
Definition matchHeading (line : string) : option (nat * string) :=
  match leadingHashes line with
  | (0, _) => None
  | (S k, String w text) =>
      if isWhiteSpace w && negb (String.eqb text "")
         && allChars (fun a => negb (isLineTerminator a)) text
      then Some (S k, text)
      else None
  | (S k, EmptyString) => None
  end.

(** [text.replace(/\s+/g, '-')]; [inRun] tells that the character before
    was white space and has been replaced already. *)
Fixpoint replaceWhiteSpaceRuns (inRun : bool) (s : string) : string :=
  match s with
  | EmptyString => EmptyString
  | String c rest =>
      if isWhiteSpace c
      then if inRun then replaceWhiteSpaceRuns true rest
           else String "-" (replaceWhiteSpaceRuns true rest)
      else String c (replaceWhiteSpaceRuns false rest)
  end.

(** [toLowerCase] of one code unit below 256: A to Z, and the accented
    capitals from 192 to 222 but for the multiplication sign 215. *)
Definition lowerChar (a : ascii) : ascii :=
  let n := nat_of_ascii a in
  if (Nat.leb 65 n && Nat.leb n 90)
     || (Nat.leb 192 n && Nat.leb n 222 && negb (Nat.eqb n 215))
  then ascii_of_nat (n + 32)
  else a.

Fixpoint toLowerCase (s : string) : string :=
  match s with
  | EmptyString => EmptyString
  | String c rest => String (lowerChar c) (toLowerCase rest)
  end.

Record Heading : Type := {
  headingId : string;
  headingText : string;
  level : nat
}.

(** The body of the [forEach] of [getMarkdownHeadings], from line [index]
    on. *)
Fixpoint headingsFrom (index : nat) (lines : list string) : list Heading :=
  match lines with
  | [] => []
  | line :: rest =>
      match matchHeading line with
      | Some (k, text) =>
          [{| headingId :=
                ("heading-" ++ decimal (N.of_nat index) ++ "-"
                 ++ toLowerCase (replaceWhiteSpaceRuns false text))%string;
              headingText := text;
              level := k |}]
      | None => []
      end ++ headingsFrom (S index) rest
  end.

Definition getMarkdownHeadings (markdownContent : string) : list Heading :=
  headingsFrom 0 (splitOn "010"%char markdownContent).

(** [s.replace(/#/g, '')] *)
Fixpoint removeHashes (s : string) : string :=
  match s with
  | EmptyString => EmptyString
  | String c rest =>
      if Ascii.eqb c "#" then removeHashes rest else String c (removeHashes rest)
  end.

Fixpoint trimStart (s : string) : string :=
  match s with
  | EmptyString => EmptyString
  | String c rest => if isWhiteSpace c then trimStart rest else s
  end.

Fixpoint trimEnd (s : string) : string :=
  match s with
  | EmptyString => EmptyString
  | String c rest =>
      match trimEnd rest with
      | EmptyString => if isWhiteSpace c then EmptyString else String c EmptyString
      | kept => String c kept
      end
  end.

(** [s.trim()] *)
Definition trim (s : string) : string := trimEnd (trimStart s).

Record OutlineItem : Type := {
  outlineId : string;
  outlineText : string
}.

(** [content.split('\n')[0].replace(/#/g, '').trim() || 'Untitled'] *)
Definition outlineTextOf (markdown : string) : string :=
  let t := trim (removeHashes (hd EmptyString (splitOn "010"%char markdown))) in
  if String.eqb t "" then "Untitled" else t.

(** The [map] of the outline of [NotebookSidebar]. A content that is not a
    string has no [split]: the render throws, which is [None] here. *)
Fixpoint outlineItems (l : list EnhancedCell) : option (list OutlineItem) :=
  match l with
  | [] => Some []
  | c :: rest =>
      match content c with
      | AStr markdown =>
          option_map
            (cons {| outlineId := id c; outlineText := outlineTextOf markdown |})
            (outlineItems rest)
      | _ => None
      end
  end.

(** [outline] of [NotebookSidebar]. *)
Definition sidebarOutline (l : list EnhancedCell) : option (list OutlineItem) :=
  option_map
    (filter (fun o => negb (String.eqb (outlineText o) "")))
    (outlineItems
       (filter (fun c => String.eqb (cellTypeValue (type c))
                                    (cellTypeValue Markdown)) l)).

(** ** [debounce] *)






(** ** [parseCodeOutputs] *)

Definition startsWith (prefix s : string) : bool := String.prefix prefix s.

Definition reverseString (s : string) : string :=
  string_of_list_ascii (rev (list_ascii_of_string s)).

Definition endsWith (suffix s : string) : bool :=
  String.prefix (reverseString suffix) (reverseString s).

(** [s.substring(n)] *)
Fixpoint dropChars (n : nat) (s : string) : string :=
  match n, s with
  | 0, _ => s
  | S n', String _ rest => dropChars n' rest
  | S _, EmptyString => EmptyString
  end.

Definition decimalZ (z : Z) : string := NilEmpty.string_of_int (Z.to_int z).

Fixpoint joinWith (sep : string) (l : list string) : string :=
  match l with
  | [] => EmptyString
  | [x] => x
  | x :: rest => (x ++ sep ++ joinWith sep rest)%string
  end.

(** What a template literal prints for a value. *)
Fixpoint toStringAny (v : Any) : string :=
  match v with
  | AUndefined => "undefined"
  | ANull => "null"
  | ABool true => "true"
  | ABool false => "false"
  | ANum n => decimalZ n
  | AStr str => str
  | AArr items =>
      joinWith ","
        (map (fun x => match x with
                       | AUndefined | ANull => EmptyString
                       | _ => toStringAny x
                       end) items)
  | AObj _ => "[object Object]"
  end.

Definition isTruthy (v : Any) : bool :=
  match v with
  | AUndefined | ANull => false
  | ABool b => b
  | ANum n => negb (Z.eqb n 0)
  | AStr str => negb (String.eqb str "")
  | AArr _ | AObj _ => true
  end.

(** [v.length]; [None] is the TypeError of reading a property of
    [undefined] or [null]. *)
Definition lengthOf (v : Any) : option Any :=
  match v with
  | AUndefined | ANull => None
  | AArr items => Some (ANum (Z.of_nat (List.length items)))
  | AStr str => Some (ANum (Z.of_nat (String.length str)))
  | AObj props => Some (match lookupProp "length" props with
                        | Some x => x
                        | None => AUndefined
                        end)
  | ABool _ | ANum _ => Some AUndefined
  end.

(** [v[0]], for a [v] that is neither [undefined] nor [null]. *)
Definition firstOf (v : Any) : Any :=
  match v with
  | AArr (x :: _) => x
  | AStr (String c _) => AStr (String c EmptyString)
  | AObj props => match lookupProp "0" props with
                  | Some x => x
                  | None => AUndefined
                  end
  | _ => AUndefined
  end.

(** [Object.keys(v).length], for a [v] that is neither [undefined] nor
    [null]. *)
Definition keyCount (v : Any) : nat :=
  match v with
  | AObj props => List.length props
  | AArr items => List.length items
  | AStr str => String.length str
  | _ => 0
  end.

Definition streamOutput (text : string) : Any :=
  AObj [("type", AStr "stream"); ("name", AStr "stdout"); ("text", AStr text)].

Definition imageOutput (payload : string) : Any :=
  AObj [("type", AStr "execute_result");
        ("data", AObj [("image/png", AStr payload)]);
        ("metadata", AObj [("format", AStr "png")])].

Definition dataframeOutput (data : Any) (summary : string) : Any :=
  AObj [("type", AStr "execute_result");
        ("data", AObj [("application/json", data); ("text/plain", AStr summary)]);
        ("metadata", AObj [("type", AStr "dataframe")])].

Definition parsingError (message_ rawOutput : string) : Any :=
  AObj [("type", AStr "error"); ("name", AStr "Parsing Error");
        ("message", AStr ("Failed to parse output: " ++ message_
                          ++ String "010"%char "Raw: " ++ rawOutput)%string)].

(** [parsed.type === 'dataframe'] *)
Definition isDataframe (parsed : list (string * Any)) : bool :=
  match lookupProp "type" parsed with
  | Some (AStr t) => String.eqb t "dataframe"
  | _ => false
  end.

(** The statements of the [try] block after the first [if]. *)
Definition plainOutputs (rawOutput : string) : list Any :=
  if startsWith "IMAGE_BASE64:" rawOutput
  then [imageOutput (dropChars (String.length "IMAGE_BASE64:") rawOutput)]
  else [streamOutput rawOutput].

(** The [try] block: [inl message] when it throws. [JSON_parse] is the
    built-in [JSON.parse] on a text that starts with an opening brace: it
    throws a SyntaxError ([inl], with its message) or returns an object
    ([inr], with its properties). [typeErrorMessage v] is the message of the
    TypeError that reading a property of [v] throws. *)
Definition tryParse (JSON_parse : string -> string + list (string * Any))
    (typeErrorMessage : Any -> string) (rawOutput : string)
    : string + list Any :=
  if startsWith "{" rawOutput && endsWith "}" rawOutput
  then
    match JSON_parse rawOutput with
    | inl syntaxError => inl syntaxError
    | inr parsed =>
        if isDataframe parsed
        then
          let data := match lookupProp "data" parsed with
                      | Some x => x
                      | None => AUndefined
                      end in
          match lengthOf data with
          | None => inl (typeErrorMessage data)
          | Some rows =>
              let first := firstOf data in
              let cols := keyCount (if isTruthy first then first else AObj []) in
              inr [dataframeOutput data
                     ("DataFrame (" ++ toStringAny rows ++ " rows, "
                      ++ decimal (N.of_nat cols) ++ " cols)")%string]
          end
        else inr (plainOutputs rawOutput)
    end
  else inr (plainOutputs rawOutput).

Definition parseCodeOutputs (JSON_parse : string -> string + list (string * Any))
    (typeErrorMessage : Any -> string) (rawOutput language_ : string)
    : list Any :=
  match tryParse JSON_parse typeErrorMessage rawOutput with
  | inr outputs_ => outputs_
  | inl message_ => [parsingError message_ rawOutput]
  end.

(** A run of [k] characters [#], and lines put together with line
    feeds between them. *)
Fixpoint hashes (k : nat) : string :=
  match k with
  | 0 => EmptyString
  | S k' => String "#" (hashes k')
  end.


Definition noLineFeed (s : string) : bool :=
  allChars (fun a => negb (Ascii.eqb a "010"%char)) s.

(** A piece of JSON text for the examples, and a stand-in for
    [JSON.parse] that knows this text and the empty object and rejects
    everything else. *)
Definition quoted (s : string) : string :=
  (String "034"%char s ++ String "034"%char EmptyString)%string.

Definition sampleDataframeText : string :=
  ("{" ++ quoted "type" ++ ":" ++ quoted "dataframe" ++ ","
   ++ quoted "data" ++ ":[{" ++ quoted "a" ++ ":1," ++ quoted "b" ++ ":2},{"
   ++ quoted "a" ++ ":3," ++ quoted "b" ++ ":4}]}")%string.

Definition sampleParse (text : string) : string + list (string * Any) :=
  if String.eqb text sampleDataframeText
  then inr [("type", AStr "dataframe");
            ("data", AArr [AObj [("a", ANum 1); ("b", ANum 2)];
                           AObj [("a", ANum 3); ("b", ANum 4)]])]
  else if String.eqb text "{}" then inr []
  else inl "Unexpected token".

Definition sampleTypeErrorMessage (v : Any) : string :=
  ("Cannot read properties of " ++ toStringAny v)%string.

Definition isMarkdown (t : ExpandedCellType) : bool :=
  match t with
  | Markdown => true
  | _ => false
  end.

Definition noHash (s : string) : bool :=
  allChars (fun a => negb (Ascii.eqb a "#")) s.

(** ** What a render hands to the presentation surfaces *)

(** [const isEditing = activeCellId === cell.id] *)
Definition isEditing (st : Session) (cell : EnhancedCell) : bool :=
  match activeCellId st with
  | Some a => String.eqb a (id cell)
  | None => false
  end.

(** The cells that a render of [st] shows in edit mode. *)
Definition editingCells (st : Session) : list EnhancedCell :=
  filter (isEditing st) (cells st).

(** [GeneralCellProps], as built in the [cells.map] of the provider. *)
Record GeneralCellProps : Type := {
  p_cell : EnhancedCell;
  p_isEditing : bool;
  p_onFocus : Action unit;
  p_onUpdateContent : Any -> bool -> Action unit;
  p_onExecute : Action unit
}.

Definition cellProps (st : Session) (cell : EnhancedCell) : GeneralCellProps :=
  {| p_cell := cell;
     p_isEditing := isEditing st cell;
     p_onFocus := setActiveCellId (Some (id cell));
     p_onUpdateContent := fun c h => updateCell (id cell) (contentUpdate c) h;
     p_onExecute := executeCell (cells st) (id cell) |}.

(** A click on the frame of a cell. The frame's [onClick] is [onFocus]; the
    frame is inside [<main>], whose [onClick] is [() => setActiveCellId(null)]
    and runs next as the click bubbles (no handler on the way stops it). *)
Definition clickOnCell (cell : EnhancedCell) (st : Session) : Session :=
  exec (p_onFocus (cellProps st cell) ;; setActiveCellId None) st.

(** A click on the "Click to add Code Cell" area, which is inside [<main>]
    as well. *)
Definition clickQuickAdd (st : Session) : Session :=
  exec (addCell Code (AObj []) None None ;; setActiveCellId None) st.


(** The line [StatusBar] shows:
    [lastNotif ? lastNotif.message : "Ready"] with
    [lastNotif = notifications[notifications.length - 1]]. *)
Definition statusBarText (st : Session) : string :=
  match nth_error (notifications st) (List.length (notifications st) - 1) with
  | Some lastNotif => message lastNotif
  | None => "Ready"
  end.


(** ** Sessions that can be reached *)

(** What can happen to a mounted notebook: a surface calls a member of the
    context it was rendered with, or time passes. *)
Inductive Event : Type :=
| EAddCell (type_ : ExpandedCellType) (content_ : Any) (index : option Z)
           (metadata_ : option (list (string * Any)))
| EUpdateCell (cellId : string) (updates : CellUpdates) (pushToHistory : bool)
| EDeleteCell (cellId : string)
| EMoveCell (from to : Z)
| EExecuteCell (cellId : string)
| ERunAllCells
| ESaveNotebook
| ELoadNotebook (notebookId : string)
| EUndo
| ERedo
| EAddNotification (n : NotificationInput)
| ESetActiveCellId (v : option string)
| EToggleSidebarPanel (p : SidebarPanel)
| ETimePasses (t : N).

Definition step (e : Event) (st : Session) : Session :=
  match e with
  | EAddCell t c i m => call (fun ctx => ctx_addCell ctx t c i m) st
  | EUpdateCell i u h => call (fun ctx => ctx_updateCell ctx i u h) st
  | EDeleteCell i => call (fun ctx => ctx_deleteCell ctx i) st
  | EMoveCell a b => call (fun ctx => ctx_moveCell ctx a b) st
  | EExecuteCell i => call (fun ctx => ctx_executeCell ctx i) st
  | ERunAllCells => call ctx_runAllCells st
  | ESaveNotebook => call ctx_saveNotebook st
  | ELoadNotebook i => call (fun ctx => ctx_loadNotebook ctx i) st
  | EUndo => call ctx_undo st
  | ERedo => call ctx_redo st
  | EAddNotification n => call (fun ctx => ctx_addNotification ctx n) st
  | ESetActiveCellId v => call (fun ctx => ctx_setActiveCellId ctx v) st
  | EToggleSidebarPanel p => call (fun ctx => ctx_toggleSidebarPanel ctx p) st
  | ETimePasses t => advance t st
  end.

Definition run (events : list Event) (st : Session) : Session :=
  fold_left (fun s e => step e s) events st.

(** The due times of the pending auto-dismiss timers, oldest first. *)
Definition dismissalDues (l : list Timer) : list N :=
  map due (filter isDismissal l).

(** What the notification queue and the timer queue keep between them. *)
Definition QueueInvariant (st : Session) : Prop :=
  Forall (fun x => (clock st < due x)%N) (timers st) /\
  map (fun n => (timestamp n + 5000)%N) (notifications st) =
    dismissalDues (timers st) /\
  Forall (fun d => (d <= clock st + 5000)%N) (dismissalDues (timers st)) /\
  StronglySorted N.le (dismissalDues (timers st)).

(** An action that keeps the invariant. *)
Definition Keeps {A} (m : Action A) : Prop :=
  forall st, QueueInvariant st -> QueueInvariant (snd (m st)).

(** The cell ids [runAllCells] executes among [l]. *)
Definition ranIds (l : list EnhancedCell) : list string :=
  map id (filter (fun c => isCodeOrSql (type c)) l).

(** * Properties *)

(** ** The sample session *)

Example sampleSession_cells :
  cells sampleSession =
    [sampleMarkdownCell; sampleCodeCell; sampleDataCell; sampleChatCell].
Proof. reflexivity. Qed.

Example sampleSession_active :
  activeCellId sampleSession = Some (id sampleMarkdownCell).
Proof. reflexivity. Qed.

Lemma sampleSession_ids_unique : NoDup (map id (cells sampleSession)).
Proof.
  simpl. repeat constructor; simpl; intuition discriminate.
Defined.

(** ** The monad and the callbacks in closed form *)

Lemma exec_ret {A} (a : A) st : exec (ret a) st = st.
Proof. reflexivity. Qed.

Lemma exec_bind {A B} (m : Action A) (k : A -> Action B) st :
  exec (bind m k) st = exec (k (fst (m st))) (exec m st).
Proof. unfold exec, bind. destruct (m st); reflexivity. Qed.

Lemma exec_seq {A} (m k : Action A) st :
  exec (m ;; k) st = exec k (exec m st).
Proof. apply exec_bind. Qed.

Lemma addNotification_closed n st :
  exec (addNotification n) st =
    {| cells := cells st; activeCellId := activeCellId st;
       notifications := notifications st ++ [notificationOf st n];
       commandPaletteOpen := commandPaletteOpen st;
       aiAssistantOpen := aiAssistantOpen st;
       globalSearchTerm := globalSearchTerm st;
       activeSidebarPanel := activeSidebarPanel st;
       timers := timers st ++ [{| due := (clock st + 5000)%N; callback := AutoDismiss |}];
       clock := clock st; random := random st; draws := S (draws st) |}.
Proof. reflexivity. Qed.

Lemma updateCell_closed cellId updates h st :
  exec (updateCell cellId updates h) st =
    {| cells := map (fun c => if String.eqb (id c) cellId
                              then spread c updates else c) (cells st);
       activeCellId := activeCellId st;
       notifications := notifications st;
       commandPaletteOpen := commandPaletteOpen st;
       aiAssistantOpen := aiAssistantOpen st;
       globalSearchTerm := globalSearchTerm st;
       activeSidebarPanel := activeSidebarPanel st;
       timers := timers st; clock := clock st;
       random := random st; draws := draws st |}.
Proof. reflexivity. Qed.

Lemma executeCell_closed captured cellId st :
  exec (executeCell captured cellId) st =
    {| cells := map (fun c => if String.eqb (id c) cellId
                              then spread c runningUpdates else c) (cells st);
       activeCellId := activeCellId st;
       notifications :=
         notifications st ++ [notificationOf st (info "Executing cell...")];
       commandPaletteOpen := commandPaletteOpen st;
       aiAssistantOpen := aiAssistantOpen st;
       globalSearchTerm := globalSearchTerm st;
       activeSidebarPanel := activeSidebarPanel st;
       timers := timers st ++
         [{| due := (clock st + 5000)%N; callback := AutoDismiss |};
          {| due := (clock st + 800)%N;
             callback := CompleteExecution cellId captured |}];
       clock := clock st; random := random st; draws := S (draws st) |}.
Proof.
  unfold executeCell, exec, bind; cbn.
  rewrite <- app_assoc. reflexivity.
Qed.

Lemma deleteCell_closed cellId st :
  exec (deleteCell cellId) st =
    {| cells := filter (fun c => negb (String.eqb (id c) cellId)) (cells st);
       activeCellId := activeCellId st;
       notifications := notifications st ++ [notificationOf st (info "Cell deleted")];
       commandPaletteOpen := commandPaletteOpen st;
       aiAssistantOpen := aiAssistantOpen st;
       globalSearchTerm := globalSearchTerm st;
       activeSidebarPanel := activeSidebarPanel st;
       timers := timers st ++ [{| due := (clock st + 5000)%N; callback := AutoDismiss |}];
       clock := clock st; random := random st; draws := S (draws st) |}.
Proof. reflexivity. Qed.

(** ** Looking a cell up by id *)






Lemma spread_running c : spread c runningUpdates = markedRunning c.
Proof. reflexivity. Qed.





(** ** Timers *)





(** ** One execution, from the call to its completion *)



(** ** Executing a cell *)






(** ** Adding a cell *)

Lemma addCell_closed type_ content_ index metadata_ st :
  exec (addCell type_ content_ index metadata_) st =
    {| cells := cells st ++ [newCellOf st type_ content_ metadata_];
       activeCellId := Some (id (newCellOf st type_ content_ metadata_));
       notifications := notifications st ++
         [{| notificationId :=
               ("notif-" ++ decimal (clock st) ++ "-"
                ++ random st (S (draws st)))%string;
             notificationType := NInfo;
             message := ("Added " ++ cellTypeValue type_ ++ " cell")%string;
             timestamp := clock st; read := false; source := None |}];
       commandPaletteOpen := commandPaletteOpen st;
       aiAssistantOpen := aiAssistantOpen st;
       globalSearchTerm := globalSearchTerm st;
       activeSidebarPanel := activeSidebarPanel st;
       timers := timers st ++ [{| due := (clock st + 5000)%N; callback := AutoDismiss |}];
       clock := clock st; random := random st; draws := S (S (draws st)) |}.
Proof. reflexivity. Qed.

Lemma specInsertAt_end {A} (x : A) l : specInsertAt (List.length l) x l = l ++ [x].
Proof. unfold specInsertAt. now rewrite firstn_all, skipn_all. Qed.

(** C2, as stated, fails: in the sample session (four cells) [addCell] with
    index 0 does not put the new cell first, the cells that were there are
    not shifted; and with index 7, which is out of range, the call is not
    rejected: the cell is added all the same. *)
Lemma addCell_index_counterexample :
  (let st' := call (fun ctx => ctx_addCell ctx Code (AObj []) (Some 0%Z) None)
                   sampleSession in
   cells st' <>
     specInsertAt 0 (newCellOf sampleSession Code (AObj []) None)
                  (cells sampleSession) /\
   nth_error (cells st') 0 = Some sampleMarkdownCell /\
   nth_error (cells st') 4 = Some (newCellOf sampleSession Code (AObj []) None)) /\
  (let st' := call (fun ctx => ctx_addCell ctx Code (AObj []) (Some 7%Z) None)
                   sampleSession in
   List.length (cells sampleSession) = 4 /\
   cells st' =
     cells sampleSession ++ [newCellOf sampleSession Code (AObj []) None]).
Proof.
  split.
  - split; [discriminate|]. split; reflexivity.
  - split; reflexivity.
Qed.

(** C2, amended: every call to [addCell], whatever the index argument, is
    accepted (there is no RangeError): the new cell is in the sequence, which
    is one longer, it has the id [generateUniqueId] made, status idle, empty
    outputs, execution count 0, and it becomes the active cell. When the
    index is omitted, or is given and equals the length of the sequence, the
    new cell is at the end, the cells that were there keeping their places.
    When the generated id is not in use, ids stay unique. *)
Theorem addCell_adds_idle_active_cell st type_ content_ index metadata_ :
  let st' := call (fun ctx => ctx_addCell ctx type_ content_ index metadata_) st in
  let newCell := newCellOf st type_ content_ metadata_ in
  In newCell (cells st') /\
  List.length (cells st') = S (List.length (cells st)) /\
  id newCell = fst (generateUniqueId "cell" st) /\
  status newCell = Some SIdle /\
  outputs newCell = Some [] /\
  executionCount newCell = Some 0%Z /\
  activeCellId st' = Some (id newCell) /\
  (index = None -> cells st' = cells st ++ [newCell]) /\
  (index = Some (Z.of_nat (List.length (cells st))) ->
   cells st' = specInsertAt (List.length (cells st)) newCell (cells st)) /\
  (~ In (id newCell) (map id (cells st)) ->
   NoDup (map id (cells st)) -> NoDup (map id (cells st'))).
Proof.
  intros st' newCell.
  assert (Hst' : st' = exec (addCell type_ content_ index metadata_) st)
    by reflexivity.
  rewrite addCell_closed in Hst'. fold newCell in Hst'.
  assert (Hcells : cells st' = cells st ++ [newCell]) by now rewrite Hst'.
  split; [rewrite Hcells; apply in_or_app; right; now left|].
  split; [rewrite Hcells, length_app; simpl; lia|].
  do 5 (split; [reflexivity|]).
  split; [intros _; exact Hcells|].
  split; [intros _; now rewrite specInsertAt_end|].
  intros Hfresh Hnd. rewrite Hcells, map_app. apply NoDup_app.
  - exact Hnd.
  - simpl. repeat constructor. intros [].
  - intros a Ha [<-|[]]. now apply Hfresh.
Qed.

(** On the sample session, index omitted: a fifth cell, active, with a
    fifth id. *)
Lemma addCell_adds_idle_active_cell_witness :
  let st' := call (fun ctx => ctx_addCell ctx Code (AObj []) None None)
                  sampleSession in
  cells st' = cells sampleSession ++ [newCellOf sampleSession Code (AObj []) None] /\
  activeCellId st' = Some "cell-1700000000000-r4" /\
  NoDup (map id (cells st')).
Proof.
  destruct (addCell_adds_idle_active_cell sampleSession Code (AObj []) None None)
    as (_ & _ & _ & _ & _ & _ & Hactive & Hend & _ & Hfresh).
  split; [now apply Hend|]. split; [exact Hactive|].
  apply Hfresh.
  - simpl. intuition discriminate.
  - exact sampleSession_ids_unique.
Defined.

(** ** Running all cells *)

Lemma includes_code_sql t :
  includes ["code"; "sql"] (cellTypeValue t) = isCodeOrSql t.
Proof. destruct t; reflexivity. Qed.

Lemma runCellVisible_cases t :
  runCellVisible t = match t with
                     | Code | AIChat | SQL | Form => true
                     | _ => false
                     end.
Proof. destruct t; reflexivity. Qed.

(** The loop of [runAllCells], over any part [l] of the cells: one
    execution timer and one "Executing cell..." notification per code or sql
    cell of [l], in the order of [l]. *)
Lemma forEach_executeCell captured l : forall st,
  let st' := exec (forEach l (fun c =>
                     if includes ["code"; "sql"] (cellTypeValue (type c))
                     then executeCell captured (id c) else ret tt)) st in
  (exists new, timers st' = timers st ++ new /\
     executionsScheduled new =
       map id (filter (fun c => isCodeOrSql (type c)) l)) /\
  (exists ns, notifications st' = notifications st ++ ns /\
     map message ns =
       repeat "Executing cell..."
         (List.length (filter (fun c => isCodeOrSql (type c)) l))).
Proof.
  induction l as [|c l IH]; intros st; cbn [forEach].
  - simpl. split; exists []; now rewrite app_nil_r.
  - rewrite exec_seq, includes_code_sql. cbn [filter]. cbn beta.
    destruct (isCodeOrSql (type c)).
    + rewrite executeCell_closed.
      match goal with |- context [exec (forEach l ?f) ?s0] =>
        destruct (IH s0) as ((new & Ht & Hnew) & (ns & Hn & Hns)) end.
      cbn [timers] in Ht. cbn [notifications] in Hn.
      split.
      * eexists. split; [rewrite Ht, <- app_assoc; reflexivity|].
        simpl. now rewrite Hnew.
      * eexists. split; [rewrite Hn, <- app_assoc; reflexivity|].
        simpl. now rewrite Hns.
    + rewrite exec_ret. apply IH.
Qed.

(** C3, as stated, fails: the sample session holds a code cell and an
    ai_chat cell, both of a type the "Run Cell" control runs, and
    [runAllCells] dispatches the code cell alone. *)
Lemma runAllCells_ai_chat_counterexample :
  map type (cells sampleSession) = [Markdown; Code; Data; AIChat] /\
  map id (filter (fun c => runCellVisible (type c)) (cells sampleSession)) =
    [id sampleCodeCell; id sampleChatCell] /\
  executionsScheduled (timers sampleSession) = [] /\
  executionsScheduled (timers (call ctx_runAllCells sampleSession)) =
    [id sampleCodeCell] /\
  executionsScheduled (timers (call ctx_runAllCells sampleSession)) <>
    map id (filter (fun c => runCellVisible (type c)) (cells sampleSession)).
Proof. repeat (split; [reflexivity|]). discriminate. Qed.

(** C3, amended: for every cell sequence, [runAllCells] dispatches an
    execution for exactly the cells whose type is code or sql, in document
    order; cells of every other type (ai_chat and form among them) get no
    dispatch. *)
Theorem runAllCells_dispatches_code_and_sql st :
  let st' := call ctx_runAllCells st in
  exists new,
    timers st' = timers st ++ new /\
    executionsScheduled new =
      map id (filter (fun c => isCodeOrSql (type c)) (cells st)).
Proof.
  intros st'. subst st'. unfold call. simpl ctx_runAllCells.
  unfold runAllCells. rewrite exec_seq, addNotification_closed.
  match goal with |- context [exec (forEach ?l ?f) ?s0] =>
    destruct (forEach_executeCell l l s0) as ((new & Ht & Hnew) & _) end.
  cbn [timers] in Ht.
  eexists. split; [rewrite Ht, <- app_assoc; reflexivity|].
  simpl. exact Hnew.
Qed.

(** The example of the specification: over cells [markdown, code, code]
    exactly the two code cells are dispatched, in their order. *)
Example runAllCells_markdown_code_code :
  let st := exec (setCells (fun _ =>
                    [bareCell "m" Markdown (AStr "") None None;
                     bareCell "c1" Code (AObj []) None None;
                     bareCell "c2" Code (AObj []) None None]))
                 (blankSession 0 sampleRandom) in
  executionsScheduled (timers (call ctx_runAllCells st)) = ["c1"; "c2"].
Proof. reflexivity. Qed.

(** ** Deleting a cell *)

(** C4, as stated, fails: in the sample session the first cell is the
    active one; deleting it removes it and the active id still names it. *)
Lemma deleteCell_active_counterexample :
  let st' := call (fun ctx => ctx_deleteCell ctx (id sampleMarkdownCell))
                  sampleSession in
  activeCellId sampleSession = Some (id sampleMarkdownCell) /\
  cells st' = [sampleCodeCell; sampleDataCell; sampleChatCell] /\
  activeCellId st' = Some (id sampleMarkdownCell) /\
  activeCellId st' <> None.
Proof. repeat (split; [reflexivity|]). discriminate. Qed.

(** C4, amended: for every state and every id, [deleteCell] removes the
    cells with that id and leaves [activeCellId] unchanged, also when the id
    is the active one. *)
Theorem deleteCell_keeps_activeCellId st cellId :
  let st' := call (fun ctx => ctx_deleteCell ctx cellId) st in
  cells st' = filter (fun c => negb (String.eqb (id c) cellId)) (cells st) /\
  (forall c, In c (cells st') <-> In c (cells st) /\ id c <> cellId) /\
  activeCellId st' = activeCellId st.
Proof.
  intros st'. subst st'. unfold call. simpl ctx_deleteCell.
  rewrite deleteCell_closed. simpl.
  split; [reflexivity|]. split; [|reflexivity].
  intros c. rewrite filter_In, negb_true_iff, String.eqb_neq. tauto.
Qed.

(** C10: for every call to [deleteCell] with an id that no cell has, the
    cell sequence is left as it was, and a "Cell deleted" info notification
    is appended to the notification queue all the same. *)
Theorem deleteCell_absent_id_still_notifies st cellId :
  (forall c, In c (cells st) -> id c <> cellId) ->
  let st' := call (fun ctx => ctx_deleteCell ctx cellId) st in
  cells st' = cells st /\
  exists n,
    notifications st' = notifications st ++ [n] /\
    notificationType n = NInfo /\ message n = "Cell deleted".
Proof.
  intros Habsent st'. subst st'. unfold call. simpl ctx_deleteCell.
  rewrite deleteCell_closed. simpl. split.
  - apply forallb_filter_id. apply forallb_forall. intros c Hc.
    apply negb_true_iff, String.eqb_neq. now apply Habsent.
  - eexists. split; [reflexivity|]. split; reflexivity.
Qed.

(** On the sample session, with an id that no cell has. *)
Lemma deleteCell_absent_id_still_notifies_witness :
  let st' := call (fun ctx => ctx_deleteCell ctx "no-such-cell") sampleSession in
  cells st' = cells sampleSession /\
  exists n,
    notifications st' = notifications sampleSession ++ [n] /\
    notificationType n = NInfo /\ message n = "Cell deleted".
Proof.
  apply (deleteCell_absent_id_still_notifies sampleSession "no-such-cell").
  intros c Hc. simpl in Hc.
  destruct Hc as [<-|[<-|[<-|[<-|[]]]]]; discriminate.
Defined.

(** ** Updating a cell *)




(** ** Moving a cell *)

(** C7, as stated, fails: positions 0 and 1 are valid in the sample
    session, and [moveCell 0 1] leaves the first cell first. *)
Lemma moveCell_counterexample :
  let st' := call (fun ctx => ctx_moveCell ctx 0%Z 1%Z) sampleSession in
  specMove 0 1 (cells sampleSession) =
    [sampleCodeCell; sampleMarkdownCell; sampleDataCell; sampleChatCell] /\
  cells st' =
    [sampleMarkdownCell; sampleCodeCell; sampleDataCell; sampleChatCell] /\
  cells st' <> specMove 0 1 (cells sampleSession).
Proof. split; [reflexivity|]. split; [reflexivity|discriminate]. Qed.

(** C7, amended: [moveCell] is a stub: for every pair of indices, valid
    positions or not, the call returns without a RangeError and leaves the
    cell sequence, and the whole session, as it was. *)
Theorem moveCell_changes_nothing st from to :
  call (fun ctx => ctx_moveCell ctx from to) st = st /\
  cells (call (fun ctx => ctx_moveCell ctx from to) st) = cells st.
Proof. split; reflexivity. Qed.

(** ** Notifications of the facade *)

(** C5, as stated, fails: on the sample session [updateCell], [moveCell]
    and [loadNotebook] append no notification, and [runAllCells] appends
    two (its own and the one of the code cell it executes). *)
Lemma facade_notification_counterexample :
  notifications sampleSession = [] /\
  notifications (call (fun ctx => ctx_updateCell ctx (id sampleCodeCell)
                                    (contentUpdate (AObj [])) true)
                      sampleSession) = [] /\
  notifications (call (fun ctx => ctx_moveCell ctx 0%Z 1%Z) sampleSession) = [] /\
  notifications (call (fun ctx => ctx_loadNotebook ctx "nb-1") sampleSession) = [] /\
  map message (notifications (call ctx_runAllCells sampleSession)) =
    ["Running all cells..."; "Executing cell..."].
Proof. repeat split. Qed.

(** C5, amended: [addCell], [deleteCell], [executeCell] and [saveNotebook]
    each append exactly one notification that tells what was done;
    [updateCell], [moveCell] and [loadNotebook] append none; [runAllCells]
    appends its own "Running all cells..." followed by one
    "Executing cell..." per code or sql cell. *)
Theorem facade_notifications st :
  (forall type_ content_ index metadata_, exists n,
     notifications (call (fun ctx => ctx_addCell ctx type_ content_ index metadata_) st)
       = notifications st ++ [n] /\
     notificationType n = NInfo /\
     message n = ("Added " ++ cellTypeValue type_ ++ " cell")%string) /\
  (forall cellId, exists n,
     notifications (call (fun ctx => ctx_deleteCell ctx cellId) st)
       = notifications st ++ [n] /\
     notificationType n = NInfo /\ message n = "Cell deleted") /\
  (forall cellId, exists n,
     notifications (call (fun ctx => ctx_executeCell ctx cellId) st)
       = notifications st ++ [n] /\
     notificationType n = NInfo /\ message n = "Executing cell...") /\
  (exists n,
     notifications (call ctx_saveNotebook st) = notifications st ++ [n] /\
     notificationType n = NSuccess /\ message n = "Notebook Saved") /\
  (forall cellId updates pushToHistory,
     notifications (call (fun ctx => ctx_updateCell ctx cellId updates pushToHistory) st)
       = notifications st) /\
  (forall from to,
     notifications (call (fun ctx => ctx_moveCell ctx from to) st)
       = notifications st) /\
  (forall notebookId,
     notifications (call (fun ctx => ctx_loadNotebook ctx notebookId) st)
       = notifications st) /\
  (exists ns,
     notifications (call ctx_runAllCells st) = notifications st ++ ns /\
     map message ns =
       "Running all cells..." ::
       repeat "Executing cell..."
         (List.length (filter (fun c => isCodeOrSql (type c)) (cells st)))).
Proof.
  split; [intros; eexists; split; [reflexivity|split; reflexivity]|].
  split; [intros; eexists; split; [reflexivity|split; reflexivity]|].
  split; [intros; eexists; split; [reflexivity|split; reflexivity]|].
  split; [eexists; split; [reflexivity|split; reflexivity]|].
  split; [reflexivity|]. split; [reflexivity|]. split; [reflexivity|].
  unfold call. simpl ctx_runAllCells.
  unfold runAllCells. rewrite exec_seq, addNotification_closed.
  match goal with |- context [exec (forEach ?l ?f) ?s0] =>
    destruct (forEach_executeCell l l s0) as (_ & (ns & Hn & Hns)) end.
  cbn [notifications] in Hn.
  eexists. split; [rewrite Hn, <- app_assoc; reflexivity|].
  simpl. now rewrite Hns.
Qed.

(** ** Decay of the notification queue *)

Lemma notifications_fireAll l : forall st,
  notifications (fireAll l st) = skipn (dismissals l) (notifications st).
Proof.
  induction l as [|x l IH]; intros st; [reflexivity|].
  change (fireAll (x :: l) st) with (fireAll l (exec (fire (callback x)) st)).
  rewrite IH. unfold dismissals. cbn [filter]. unfold isDismissal at 2.
  destruct (callback x); cbn [fire].
  - cbn [List.length]. change (notifications (exec (setNotifications _) st))
      with (skipn 1 (notifications st)).
    rewrite skipn_skipn. f_equal. lia.
  - rewrite updateCell_closed. reflexivity.
Qed.

Lemma dismissals_insertTimer x l :
  dismissals (insertTimer x l) = dismissals (x :: l).
Proof.
  unfold dismissals. induction l as [|y l IH]; [reflexivity|].
  cbn [insertTimer]. destruct (due x <=? due y)%N; [reflexivity|].
  cbn [filter] in *. destruct (isDismissal y), (isDismissal x);
    cbn [List.length] in *; rewrite IH; reflexivity.
Qed.

Lemma dismissals_firingOrder l : dismissals (firingOrder l) = dismissals l.
Proof.
  induction l as [|x l IH]; [reflexivity|].
  cbn [firingOrder fold_right]. fold (firingOrder l).
  rewrite dismissals_insertTimer. unfold dismissals in *. cbn [filter].
  destruct (isDismissal x); cbn [List.length]; now rewrite IH.
Qed.

(** Each auto-dismiss timer that is due drops the oldest notification that
    is left, whichever push set the timer. *)
Lemma notifications_advance t st :
  notifications (advance t st) =
    skipn (dismissals (filter (isDue t) (timers st))) (notifications st).
Proof.
  unfold advance. now rewrite notifications_fireAll, dismissals_firingOrder.
Qed.

Lemma filter_none {A} (f : A -> bool) l :
  (forall x, In x l -> f x = false) -> filter f l = [].
Proof.
  induction l as [|a l IH]; intros H; [reflexivity|].
  simpl. rewrite (H a) by now left. apply IH. intros x Hx. apply H. now right.
Qed.

Lemma advance_idle t st :
  (forall x, In x (timers st) -> (t < due x)%N) ->
  advance t st =
    {| cells := cells st; activeCellId := activeCellId st;
       notifications := notifications st;
       commandPaletteOpen := commandPaletteOpen st;
       aiAssistantOpen := aiAssistantOpen st;
       globalSearchTerm := globalSearchTerm st;
       activeSidebarPanel := activeSidebarPanel st;
       timers := timers st; clock := N.max (clock st) t;
       random := random st; draws := draws st |}.
Proof.
  intros Hlater. unfold advance.
  assert (Hdue : forall x, In x (timers st) -> isDue t x = false).
  { intros x Hx. unfold isDue. apply N.leb_gt. now apply Hlater. }
  rewrite (filter_none _ _ Hdue). cbn [firingOrder fold_right fireAll fold_left].
  f_equal. apply forallb_filter_id. apply forallb_forall.
  intros x Hx. now rewrite Hdue.
Qed.

Lemma pushAt_idle t n st :
  (forall x, In x (timers st) -> (t < due x)%N) ->
  (clock st <= t)%N ->
  timers (pushAt t n st) =
    timers st ++ [{| due := (t + 5000)%N; callback := AutoDismiss |}] /\
  clock (pushAt t n st) = t /\
  exists nt,
    notifications (pushAt t n st) = notifications st ++ [nt] /\
    message nt = in_message n /\ timestamp nt = t.
Proof.
  intros Hlater Hclock. unfold pushAt.
  rewrite addNotification_closed, (advance_idle t st Hlater).
  unfold notificationOf. cbn [timers clock notifications random draws].
  rewrite (N.max_r _ _ Hclock).
  split; [reflexivity|]. split; [reflexivity|].
  eexists. split; [reflexivity|]. split; reflexivity.
Qed.

(** C8, as stated, fails: three notifications pushed at the same instant
    on a fresh session set three timers, and once the 5000 ms have passed
    all three notifications are gone, not one. The same holds for pushes
    10 ms apart, 5000 ms after the last of them. *)
Lemma three_pushes_counterexample :
  let st0 := blankSession 0 sampleRandom in
  let st3 := pushAt 0 (info "third") (pushAt 0 (info "second")
               (pushAt 0 (info "first") st0)) in
  map message (notifications st3) = ["first"; "second"; "third"] /\
  map due (timers st3) = [5000; 5000; 5000]%N /\
  notifications (advance 5000 st3) = [] /\
  List.length (notifications (advance 5000 st3)) <> 2 /\
  let st3' := pushAt 20 (info "third") (pushAt 10 (info "second")
                (pushAt 0 (info "first") st0)) in
  map due (timers st3') = [5000; 5010; 5020]%N /\
  notifications (advance 5020 st3') = [].
Proof.
  repeat (split; [reflexivity|]). split; [discriminate|].
  split; reflexivity.
Qed.

(** C8, amended: each push sets its own timer, which drops the oldest
    notification left 5000 ms after that push. Three notifications pushed at
    times [t1 <= t2 <= t3], all before the first decays, on a session with
    an empty queue and no pending timer: until [t1 + 5000] all three are
    there; from [t1 + 5000] until [t2 + 5000] exactly one, the oldest, has
    been removed and the other two are left; from [t2 + 5000] until
    [t3 + 5000] the newest alone is left; once 5000 ms have passed since the
    last push none is left. *)
Theorem three_pushes_decay st n1 n2 n3 (t1 t2 t3 t : N) :
  notifications st = [] -> timers st = [] ->
  (clock st <= t1)%N -> (t1 <= t2)%N -> (t2 <= t3)%N -> (t3 < t1 + 5000)%N ->
  (t3 <= t)%N ->
  let st3 := pushAt t3 n3 (pushAt t2 n2 (pushAt t1 n1 st)) in
  exists a b c,
    notifications st3 = [a; b; c] /\
    message a = in_message n1 /\ message b = in_message n2 /\
    message c = in_message n3 /\
    ((t < t1 + 5000)%N -> notifications (advance t st3) = [a; b; c]) /\
    ((t1 + 5000 <= t)%N -> (t < t2 + 5000)%N ->
       notifications (advance t st3) = [b; c]) /\
    ((t2 + 5000 <= t)%N -> (t < t3 + 5000)%N ->
       notifications (advance t st3) = [c]) /\
    ((t3 + 5000 <= t)%N -> notifications (advance t st3) = []).
Proof.
  intros Hn Ht H01 H12 H23 Hquick Hobs st3.
  destruct (pushAt_idle t1 n1 st) as (Ht1 & Hc1 & a & Hn1 & Ha & _);
    [rewrite Ht; intros x []|exact H01|].
  rewrite Ht in Ht1. rewrite Hn in Hn1. cbn [app] in Ht1, Hn1.
  destruct (pushAt_idle t2 n2 (pushAt t1 n1 st)) as (Ht2 & Hc2 & b & Hn2 & Hb & _).
  { rewrite Ht1. intros x [<-|[]]. cbn [due]. lia. }
  { rewrite Hc1. exact H12. }
  rewrite Ht1 in Ht2. rewrite Hn1 in Hn2. cbn [app] in Ht2, Hn2.
  destruct (pushAt_idle t3 n3 (pushAt t2 n2 (pushAt t1 n1 st)))
    as (Ht3 & Hc3 & c & Hn3 & Hc & _).
  { rewrite Ht2. intros x [<-|[<-|[]]]; cbn [due]; lia. }
  { rewrite Hc2. exact H23. }
  rewrite Ht2 in Ht3. rewrite Hn2 in Hn3. cbn [app] in Ht3, Hn3.
  fold st3 in Ht3, Hn3.
  exists a, b, c. split; [exact Hn3|]. do 3 (split; [assumption|]).
  rewrite notifications_advance, Ht3, Hn3.
  unfold dismissals, isDue. cbn [filter due].
  destruct (N.leb_spec (t1 + 5000) t), (N.leb_spec (t2 + 5000) t),
    (N.leb_spec (t3 + 5000) t); cbn; repeat split; intros; try reflexivity; lia.
Qed.

(** Pushes at 0, 10 and 20 ms, observed at 5000, 5010 and 5020 ms. *)
Lemma three_pushes_decay_witness :
  let st3 := pushAt 20 (info "third") (pushAt 10 (info "second")
               (pushAt 0 (info "first") (blankSession 0 sampleRandom))) in
  map message (notifications (advance 5000 st3)) = ["second"; "third"] /\
  map message (notifications (advance 5010 st3)) = ["third"] /\
  notifications (advance 5020 st3) = [].
Proof.
  destruct (three_pushes_decay (blankSession 0 sampleRandom)
              (info "first") (info "second") (info "third") 0 10 20 5000)
    as (a & b & c & _ & _ & Hb & Hc & _ & Hone & _);
    [reflexivity|reflexivity|cbn; lia|lia|lia|lia|lia|].
  destruct (three_pushes_decay (blankSession 0 sampleRandom)
              (info "first") (info "second") (info "third") 0 10 20 5010)
    as (a' & b' & c' & _ & _ & _ & Hc' & _ & _ & Htwo & _);
    [reflexivity|reflexivity|cbn; lia|lia|lia|lia|lia|].
  destruct (three_pushes_decay (blankSession 0 sampleRandom)
              (info "first") (info "second") (info "third") 0 10 20 5020)
    as (a'' & b'' & c'' & _ & _ & _ & _ & _ & _ & _ & Hall);
    [reflexivity|reflexivity|cbn; lia|lia|lia|lia|lia|].
  intros st3. subst st3.
  rewrite Hone by lia. rewrite Htwo by lia. rewrite Hall by lia.
  cbn [map]. rewrite Hb, Hc, Hc'. repeat split.
Defined.

(** * Further properties of the provider *)

(** ** What timers can and cannot change *)

Lemma insertTimer_In x a l : In x (insertTimer a l) <-> x = a \/ In x l.
Proof.
  induction l as [|y l IH]; simpl.
  - intuition.
  - destruct (due a <=? due y)%N; simpl; [intuition|].
    rewrite IH. intuition.
Qed.

Lemma firingOrder_In x l : In x (firingOrder l) <-> In x l.
Proof.
  induction l as [|a l IH]; simpl; [tauto|].
  fold (firingOrder l). rewrite insertTimer_In, IH. intuition.
Qed.

Lemma fireAll_cons x l st :
  fireAll (x :: l) st = fireAll l (exec (fire (callback x)) st).
Proof. reflexivity. Qed.

Lemma fire_keeps_documents cb st :
  map id (cells (exec (fire cb) st)) = map id (cells st) /\
  map type (cells (exec (fire cb) st)) = map type (cells st) /\
  map content (cells (exec (fire cb) st)) = map content (cells st) /\
  activeCellId (exec (fire cb) st) = activeCellId st.
Proof.
  destruct cb as [|cellId captured]; [repeat split|].
  cbn [fire]. rewrite updateCell_closed. cbn [cells activeCellId].
  rewrite !map_map.
  repeat split; apply map_ext; intros c;
    destruct (String.eqb (id c) cellId); reflexivity.
Qed.

Lemma fireAll_keeps_documents l : forall st,
  map id (cells (fireAll l st)) = map id (cells st) /\
  map type (cells (fireAll l st)) = map type (cells st) /\
  map content (cells (fireAll l st)) = map content (cells st) /\
  activeCellId (fireAll l st) = activeCellId st.
Proof.
  induction l as [|x l IH]; intros st; [repeat split|].
  rewrite fireAll_cons.
  destruct (IH (exec (fire (callback x)) st)) as (H1 & H2 & H3 & H4).
  destruct (fire_keeps_documents (callback x) st) as (G1 & G2 & G3 & G4).
  rewrite H1, H2, H3, H4. auto.
Qed.


(** A completion whose cell is gone writes nothing. *)
Lemma fireAll_foreign_ids l : forall st,
  (forall x cellId captured, In x l ->
     callback x = CompleteExecution cellId captured ->
     ~ In cellId (map id (cells st))) ->
  cells (fireAll l st) = cells st.
Proof.
  induction l as [|x l IH]; intros st Hforeign; [reflexivity|].
  rewrite fireAll_cons.
  assert (Hstep : cells (exec (fire (callback x)) st) = cells st).
  { destruct (callback x) as [|cellId captured] eqn:Hcb; [reflexivity|].
    cbn [fire]. rewrite updateCell_closed. cbn [cells].
    rewrite <- (map_id (cells st)) at 2. apply map_ext_in. intros c Hc.
    destruct (String.eqb_spec (id c) cellId) as [Heq|_]; [|reflexivity].
    exfalso. apply (Hforeign x cellId captured); [now left|exact Hcb|].
    rewrite <- Heq. now apply in_map. }
  rewrite IH; [exact Hstep|].
  intros y cellId captured Hy Hcb. rewrite Hstep.
  apply (Hforeign y cellId captured); [now right|exact Hcb].
Qed.

Lemma executionsScheduled_nil_In l x cellId captured :
  executionsScheduled l = [] -> In x l ->
  callback x <> CompleteExecution cellId captured.
Proof.
  unfold executionsScheduled. intros Hnil Hin Hcb.
  assert (Hmem : In cellId (flat_map (fun x => match callback x with
                     | CompleteExecution cellId _ => [cellId]
                     | AutoDismiss => []
                     end) l)).
  { apply in_flat_map. exists x. split; [exact Hin|]. rewrite Hcb. now left. }
  rewrite Hnil in Hmem. exact Hmem.
Qed.

(** [executeCell] with an id that no cell has (no execution being in
    flight): the call is not refused, it leaves the cells as they are, pushes
    "Executing cell..." and sets its completion timer all the same; when the
    timer fires, the cells are still as they were. *)
Theorem executeCell_absent_id st cellId t :
  (forall c, In c (cells st) -> id c <> cellId) ->
  executionsScheduled (timers st) = [] ->
  let st1 := call (fun ctx => ctx_executeCell ctx cellId) st in
  cells st1 = cells st /\
  map message (notifications st1) =
    map message (notifications st) ++ ["Executing cell..."] /\
  executionsScheduled (timers st1) = [cellId] /\
  cells (advance t st1) = cells st.
Proof.
  intros Habsent Hidle st1.
  assert (Hst1 : st1 = exec (executeCell (cells st) cellId) st) by reflexivity.
  rewrite executeCell_closed in Hst1.
  assert (Hcells : cells st1 = cells st).
  { rewrite Hst1. cbn [cells]. rewrite <- (map_id (cells st)) at 2.
    apply map_ext_in. intros c Hc.
    destruct (String.eqb_spec (id c) cellId) as [Heq|_]; [|reflexivity].
    now apply Habsent in Hc. }
  split; [exact Hcells|].
  split; [rewrite Hst1; cbn [notifications]; now rewrite map_app|].
  split.
  { rewrite Hst1. cbn [timers]. unfold executionsScheduled in *.
    rewrite flat_map_app, Hidle. reflexivity. }
  unfold advance. rewrite fireAll_foreign_ids; [exact Hcells|].
  cbn [cells]. intros x i captured Hx Hcb.
  apply firingOrder_In, filter_In in Hx. destruct Hx as [Hx _].
  rewrite Hst1 in Hx. cbn [timers] in Hx.
  apply in_app_or in Hx. destruct Hx as [Hx|[<-|[<-|[]]]].
  - exfalso. exact (executionsScheduled_nil_In _ _ _ _ Hidle Hx Hcb).
  - discriminate Hcb.
  - cbn [callback] in Hcb. injection Hcb as <- _.
    rewrite Hcells. intros Hin. apply in_map_iff in Hin.
    destruct Hin as (c & Hid & Hc). now apply (Habsent c Hc).
Qed.

(** The sample session, an id nobody has, any later instant. *)
Lemma executeCell_absent_id_witness :
  cells (advance 1700000000800
           (call (fun ctx => ctx_executeCell ctx "no-such-cell") sampleSession)) =
    cells sampleSession.
Proof.
  apply (executeCell_absent_id sampleSession "no-such-cell" 1700000000800).
  - intros c Hc. simpl in Hc.
    destruct Hc as [<-|[<-|[<-|[<-|[]]]]]; discriminate.
  - reflexivity.
Defined.

(** ** Two executions of one cell *)



(** ** Selection, edit mode and the status bar *)

Lemma filter_filter_none {A} (f g : A -> bool) l :
  (forall x, g x = true -> f x = false) -> filter f (filter g l) = [].
Proof.
  intros H. apply filter_none. intros x Hx. apply filter_In in Hx.
  now apply H.
Qed.

(** After [deleteCell] no cell has the deleted id, so although the active
    id is kept, a render that follows the deletion of the active cell shows
    no cell in edit mode. *)
Theorem deleteCell_active_leaves_no_editing st cellId :
  activeCellId st = Some cellId ->
  let st' := call (fun ctx => ctx_deleteCell ctx cellId) st in
  ~ In cellId (map id (cells st')) /\
  editingCells st' = [] /\
  forall c, In c (cells st') -> isEditing st' c = false.
Proof.
  intros Hactive st'.
  assert (Hst' : st' = exec (deleteCell cellId) st) by reflexivity.
  rewrite deleteCell_closed in Hst'.
  assert (Hgone : forall c, In c (cells st') -> id c <> cellId).
  { intros c Hc. rewrite Hst' in Hc. cbn [cells] in Hc.
    apply filter_In in Hc. destruct Hc as [_ Hc].
    now apply negb_true_iff, String.eqb_neq in Hc. }
  assert (Hedit : forall c, In c (cells st') -> isEditing st' c = false).
  { intros c Hc. unfold isEditing.
    replace (activeCellId st') with (Some cellId) by now rewrite Hst'.
    apply String.eqb_neq. intros Heq. now apply (Hgone c Hc). }
  split; [|split; [|exact Hedit]].
  - intros Hin. apply in_map_iff in Hin. destruct Hin as (c & Hid & Hc).
    now apply (Hgone c Hc).
  - unfold editingCells. now apply filter_none.
Qed.

Lemma deleteCell_active_leaves_no_editing_witness :
  editingCells sampleSession = [sampleMarkdownCell] /\
  editingCells (call (fun ctx => ctx_deleteCell ctx (id sampleMarkdownCell))
                     sampleSession) = [].
Proof.
  split; [reflexivity|].
  apply (deleteCell_active_leaves_no_editing sampleSession (id sampleMarkdownCell)).
  reflexivity.
Defined.

Lemma filter_app_fresh (l : list EnhancedCell) x :
  ~ In (id x) (map id l) ->
  filter (fun c => negb (String.eqb (id c) (id x))) (l ++ [x]) = l.
Proof.
  intros Hfresh. rewrite filter_app. cbn [filter].
  rewrite String.eqb_refl. cbn [negb]. rewrite app_nil_r.
  apply forallb_filter_id, forallb_forall. intros c Hc.
  apply negb_true_iff, String.eqb_neq. intros Heq.
  apply Hfresh. rewrite <- Heq. now apply in_map.
Qed.

(** [addCell] undone by [deleteCell]: when the generated id is not in use,
    deleting the cell just added gives back the cell sequence there was; the
    selection keeps naming the cell that is gone, and no cell is in edit
    mode. *)
Theorem addCell_then_deleteCell st type_ content_ index metadata_ :
  let newId := id (newCellOf st type_ content_ metadata_) in
  ~ In newId (map id (cells st)) ->
  let st1 := call (fun ctx => ctx_addCell ctx type_ content_ index metadata_) st in
  let st2 := call (fun ctx => ctx_deleteCell ctx newId) st1 in
  cells st2 = cells st /\
  activeCellId st2 = Some newId /\
  editingCells st2 = [] /\
  map message (notifications st2) =
    map message (notifications st) ++
      [("Added " ++ cellTypeValue type_ ++ " cell")%string; "Cell deleted"].
Proof.
  intros newId Hfresh st1 st2.
  assert (Hst1 : st1 = exec (addCell type_ content_ index metadata_) st)
    by reflexivity.
  rewrite addCell_closed in Hst1.
  assert (Hst2 : st2 = exec (deleteCell newId) st1) by reflexivity.
  rewrite deleteCell_closed in Hst2.
  assert (Hcells : cells st2 = cells st).
  { rewrite Hst2. cbn [cells]. rewrite Hst1. cbn [cells].
    now apply filter_app_fresh. }
  assert (Hactive : activeCellId st2 = Some newId)
    by (rewrite Hst2; cbn [activeCellId]; now rewrite Hst1).
  split; [exact Hcells|]. split; [exact Hactive|]. split.
  - unfold editingCells, isEditing. rewrite Hactive, Hcells.
    apply filter_none. intros c Hc. apply String.eqb_neq. intros Heq.
    apply Hfresh. rewrite Heq. now apply in_map.
  - rewrite Hst2. cbn [notifications]. rewrite Hst1. cbn [notifications].
    rewrite !map_app. cbn. now rewrite <- app_assoc.
Qed.

Lemma addCell_then_deleteCell_witness :
  cells (call (fun ctx => ctx_deleteCell ctx "cell-1700000000000-r4")
           (call (fun ctx => ctx_addCell ctx Markdown (AStr "") None None)
                 sampleSession)) = cells sampleSession.
Proof.
  apply (addCell_then_deleteCell sampleSession Markdown (AStr "") None None).
  simpl. intuition discriminate.
Defined.

Lemma override_idempotent {A} (u : option A) (x : A) :
  override u (override u x) = override u x.
Proof. now destruct u. Qed.

Lemma spread_idempotent c u : spread (spread c u) u = spread c u.
Proof.
  unfold spread. cbn -[override]. now rewrite !override_idempotent.
Qed.

(** [updateCell] is idempotent: the same update applied a second time
    changes nothing more, also when the update rewrites the id it is
    addressed to. *)
Theorem updateCell_idempotent st cellId updates h1 h2 :
  cells (call (fun ctx => ctx_updateCell ctx cellId updates h2)
           (call (fun ctx => ctx_updateCell ctx cellId updates h1) st)) =
  cells (call (fun ctx => ctx_updateCell ctx cellId updates h1) st).
Proof.
  unfold call. cbn [ctx_updateCell contextValue].
  rewrite !updateCell_closed. cbn [cells].
  rewrite map_map. apply map_ext. intros c.
  destruct (String.eqb (id c) cellId) eqn:Hc.
  - destruct (String.eqb (id (spread c updates)) cellId); [|reflexivity].
    apply spread_idempotent.
  - now rewrite Hc.
Qed.

Lemma nth_error_last {A} (l : list A) x :
  nth_error (l ++ [x]) (List.length (l ++ [x]) - 1) = Some x.
Proof.
  rewrite length_app. cbn [List.length].
  replace (List.length l + 1 - 1) with (List.length l) by lia.
  rewrite nth_error_app2 by lia. now rewrite Nat.sub_diag.
Qed.

Lemma statusBarText_pushed st n :
  statusBarText (exec (addNotification n) st) = in_message n.
Proof.
  unfold statusBarText. rewrite addNotification_closed. cbn [notifications].
  now rewrite nth_error_last.
Qed.

(** The status bar reads "Ready" while the queue is empty, and after each
    call of the facade that notifies it reads what the last notification of
    that call says, whatever was queued before: for [runAllCells] that is
    "Executing cell..." as soon as there is a code or sql cell. *)
Theorem statusBar_shows_latest st :
  (notifications st = [] -> statusBarText st = "Ready") /\
  (forall n, statusBarText (call (fun ctx => ctx_addNotification ctx n) st)
             = in_message n) /\
  (forall type_ content_ index metadata_,
     statusBarText (call (fun ctx => ctx_addCell ctx type_ content_ index metadata_) st)
     = ("Added " ++ cellTypeValue type_ ++ " cell")%string) /\
  (forall cellId,
     statusBarText (call (fun ctx => ctx_deleteCell ctx cellId) st)
     = "Cell deleted") /\
  (forall cellId,
     statusBarText (call (fun ctx => ctx_executeCell ctx cellId) st)
     = "Executing cell...") /\
  statusBarText (call ctx_saveNotebook st) = "Notebook Saved" /\
  statusBarText (call ctx_runAllCells st) =
    match ranIds (cells st) with
    | [] => "Running all cells..."
    | _ :: _ => "Executing cell..."
    end.
Proof.
  split; [intros Hn; unfold statusBarText; now rewrite Hn|].
  split; [intros n; apply statusBarText_pushed|].
  split.
  { intros. unfold call, statusBarText. cbn [ctx_addCell contextValue].
    rewrite addCell_closed. cbn [notifications]. now rewrite nth_error_last. }
  split.
  { intros. unfold call, statusBarText. cbn [ctx_deleteCell contextValue].
    rewrite deleteCell_closed. cbn [notifications]. now rewrite nth_error_last. }
  split.
  { intros. unfold call, statusBarText. cbn [ctx_executeCell contextValue].
    rewrite executeCell_closed. cbn [notifications]. now rewrite nth_error_last. }
  split; [apply statusBarText_pushed|].
  unfold call. cbn [ctx_runAllCells contextValue].
  unfold runAllCells. rewrite exec_seq.
  set (s0 := exec (addNotification _) st).
  assert (Hcells : forall l s,
    statusBarText (exec (forEach l (fun c =>
        if includes ["code"; "sql"] (cellTypeValue (type c))
        then executeCell (cells st) (id c) else ret tt)) s) =
    match ranIds l with
    | [] => statusBarText s
    | _ :: _ => "Executing cell..."
    end).
  { induction l as [|c l IH]; intros s; [reflexivity|].
    cbn [forEach]. rewrite exec_seq, includes_code_sql, IH.
    unfold ranIds. cbn [filter]. cbn beta.
    destruct (isCodeOrSql (type c)).
    - cbn [map]. destruct (map id (filter _ l)); [|reflexivity].
      unfold statusBarText. rewrite executeCell_closed. cbn [notifications].
      now rewrite nth_error_last.
    - now rewrite exec_ret. }
  rewrite Hcells. destruct (ranIds (cells st)); [|reflexivity].
  apply statusBarText_pushed.
Qed.

(** A cell added through the "Click to add Code Cell" area is appended,
    idle, like one added from the toolbar, but it does not end up active: the
    click goes on to [<main>], which clears the selection, and so no cell is
    in edit mode afterwards. From the toolbar the new cell is the active
    one. *)
Theorem clickQuickAdd_not_active st :
  let newCell := newCellOf st Code (AObj []) None in
  cells (clickQuickAdd st) = cells st ++ [newCell] /\
  activeCellId (clickQuickAdd st) = None /\
  editingCells (clickQuickAdd st) = [] /\
  activeCellId (call (fun ctx => ctx_addCell ctx Code (AObj []) None None) st)
    = Some (id newCell).
Proof.
  intros newCell. unfold clickQuickAdd. rewrite exec_seq, addCell_closed.
  split; [reflexivity|]. split; [reflexivity|]. split; [|reflexivity].
  unfold editingCells, isEditing. cbn [activeCellId exec setActiveCellId snd].
  now apply filter_none.
Qed.

(** A click on the frame of a cell selects it and, in the same event,
    [<main>] clears the selection: whatever was active before, no cell is
    active or in edit mode after the click, and nothing else has changed. *)
Theorem clickOnCell_clears_selection st cell :
  activeCellId (clickOnCell cell st) = None /\
  editingCells (clickOnCell cell st) = [] /\
  cells (clickOnCell cell st) = cells st /\
  notifications (clickOnCell cell st) = notifications st /\
  timers (clickOnCell cell st) = timers st.
Proof.
  split; [reflexivity|]. split; [|repeat split].
  unfold editingCells, isEditing. cbn. now apply filter_none.
Qed.

(** ** Committing a draft and executing, in one event *)










(** ** Run all, to completion *)





Lemma flat_map_timer_In (l : list EnhancedCell) (f : EnhancedCell -> list Timer) x :
  In x (flat_map f l) <-> exists c, In c l /\ In x (f c).
Proof. apply in_flat_map. Qed.



(** ** The notification queue over the life of a session *)

Lemma QueueInvariant_same_queue st st' :
  timers st' = timers st -> notifications st' = notifications st ->
  clock st' = clock st -> QueueInvariant st -> QueueInvariant st'.
Proof.
  unfold QueueInvariant. intros -> -> ->. tauto.
Qed.

Lemma Keeps_ret {A} (a : A) : Keeps (ret a).
Proof. intros st H. exact H. Qed.

Lemma Keeps_bind {A B} (m : Action A) (k : A -> Action B) :
  Keeps m -> (forall a, Keeps (k a)) -> Keeps (bind m k).
Proof.
  intros Hm Hk st H. unfold bind.
  specialize (Hm st H). destruct (m st) as [a st1]. now apply Hk.
Qed.

Lemma Keeps_forEach {A} (l : list A) (f : A -> Action unit) :
  (forall x, Keeps (f x)) -> Keeps (forEach l f).
Proof.
  intros Hf. induction l as [|x l IH]; cbn [forEach].
  - apply Keeps_ret.
  - apply Keeps_bind; [apply Hf|intros _; exact IH].
Qed.

Lemma Keeps_setCells f : Keeps (setCells f).
Proof. intros st H. now apply (QueueInvariant_same_queue st). Qed.

Lemma Keeps_setActiveCellId v : Keeps (setActiveCellId v).
Proof. intros st H. now apply (QueueInvariant_same_queue st). Qed.

Lemma Keeps_setActiveSidebarPanel p : Keeps (setActiveSidebarPanel p).
Proof. intros st H. now apply (QueueInvariant_same_queue st). Qed.

Lemma dismissalDues_app l1 l2 :
  dismissalDues (l1 ++ l2) = dismissalDues l1 ++ dismissalDues l2.
Proof. unfold dismissalDues. now rewrite filter_app, map_app. Qed.

Lemma StronglySorted_snoc (l : list N) d :
  StronglySorted N.le l -> Forall (fun x => (x <= d)%N) l ->
  StronglySorted N.le (l ++ [d]).
Proof.
  induction 1 as [|a l Hs IH Ha]; intros Hle; cbn.
  - repeat constructor.
  - inversion Hle as [|? ? Had Hl]; subst. constructor; [now apply IH|].
    apply Forall_app. split; [exact Ha|]. now constructor.
Qed.

Lemma Forall_weaken_le (l : list N) a b :
  (a <= b)%N -> Forall (fun x => (x <= a)%N) l -> Forall (fun x => (x <= b)%N) l.
Proof.
  intros Hab H. eapply Forall_impl; [|exact H]. cbn. intros x Hx. lia.
Qed.

Lemma Keeps_addNotification n : Keeps (addNotification n).
Proof.
  intros st (Ha & Hb & Hc & Hd).
  change (snd (addNotification n st)) with (exec (addNotification n) st).
  rewrite addNotification_closed. unfold QueueInvariant.
  cbn [timers notifications clock].
  rewrite dismissalDues_app, map_app. cbn.
  split; [|split; [|split]].
  - apply Forall_app. split; [exact Ha|]. constructor; [cbn; lia|constructor].
  - now rewrite Hb.
  - apply Forall_app. split; [exact Hc|]. constructor; [lia|constructor].
  - now apply StronglySorted_snoc.
Qed.

Lemma Keeps_setTimeout_completion cellId captured :
  Keeps (setTimeout (CompleteExecution cellId captured) 800).
Proof.
  intros st (Ha & Hb & Hc & Hd). unfold QueueInvariant.
  cbn [setTimeout snd timers notifications clock].
  rewrite dismissalDues_app. cbn. rewrite app_nil_r.
  split; [|auto].
  apply Forall_app. split; [exact Ha|]. constructor; [cbn; lia|constructor].
Qed.

Lemma Keeps_updateCell cellId updates h : Keeps (updateCell cellId updates h).
Proof. apply Keeps_setCells. Qed.

Lemma Keeps_executeCell captured cellId : Keeps (executeCell captured cellId).
Proof.
  unfold executeCell.
  apply Keeps_bind; [apply Keeps_updateCell|intros _].
  apply Keeps_bind; [apply Keeps_addNotification|intros _].
  apply Keeps_setTimeout_completion.
Qed.

Lemma Keeps_generateUniqueId prefix : Keeps (generateUniqueId prefix).
Proof. intros st H. now apply (QueueInvariant_same_queue st). Qed.

Lemma Keeps_addCell type_ content_ index metadata_ :
  Keeps (addCell type_ content_ index metadata_).
Proof.
  unfold addCell.
  apply Keeps_bind; [apply Keeps_generateUniqueId|intros newId].
  apply Keeps_bind; [apply Keeps_setCells|intros _].
  apply Keeps_bind; [apply Keeps_setActiveCellId|intros _].
  apply Keeps_addNotification.
Qed.

Lemma Keeps_deleteCell cellId : Keeps (deleteCell cellId).
Proof.
  unfold deleteCell.
  apply Keeps_bind; [apply Keeps_setCells|intros _].
  apply Keeps_addNotification.
Qed.

Lemma Keeps_runAllCells captured : Keeps (runAllCells captured).
Proof.
  unfold runAllCells.
  apply Keeps_bind; [apply Keeps_addNotification|intros _].
  apply Keeps_forEach. intros c.
  destruct (includes _ _); [apply Keeps_executeCell|apply Keeps_ret].
Qed.

Lemma fireAll_keeps_queue l : forall st,
  timers (fireAll l st) = timers st /\ clock (fireAll l st) = clock st.
Proof.
  induction l as [|x l IH]; intros st; [now split|].
  rewrite fireAll_cons.
  destruct (IH (exec (fire (callback x)) st)) as [Ht Hc].
  rewrite Ht, Hc. now destruct (callback x).
Qed.

Lemma dismissalDues_filter (p : N -> bool) l :
  dismissalDues (filter (fun x => p (due x)) l) = filter p (dismissalDues l).
Proof.
  unfold dismissalDues. induction l as [|x l IH]; [reflexivity|].
  cbn [filter].
  destruct (p (due x)) eqn:Hp, (isDismissal x) eqn:Hd;
    cbn [filter map]; rewrite ?Hd, ?Hp; cbn [map filter]; rewrite ?Hp;
    now rewrite IH.
Qed.

Lemma dismissals_due t l :
  dismissals (filter (isDue t) l) =
    List.length (filter (fun d => (d <=? t)%N) (dismissalDues l)).
Proof.
  rewrite <- (dismissalDues_filter (fun d => (d <=? t)%N)).
  unfold dismissals, dismissalDues. now rewrite length_map.
Qed.

Lemma sorted_later_is_suffix t (l : list N) :
  StronglySorted N.le l ->
  filter (fun d => negb (d <=? t)%N) l =
    skipn (List.length (filter (fun d => (d <=? t)%N) l)) l.
Proof.
  induction 1 as [|d l Hs IH Hd]; [reflexivity|].
  cbn [filter]. destruct (N.leb_spec d t) as [Hle|Hgt]; cbn [negb].
  - cbn [List.length skipn]. exact IH.
  - assert (Hall : forall x, In x l -> (x <=? t)%N = false).
    { intros x Hx. apply N.leb_gt.
      rewrite Forall_forall in Hd. specialize (Hd x Hx). lia. }
    rewrite (filter_none _ _ Hall). cbn [List.length skipn]. f_equal.
    apply forallb_filter_id, forallb_forall. intros x Hx.
    now rewrite (Hall x Hx).
Qed.

Lemma StronglySorted_filter (p : N -> bool) l :
  StronglySorted N.le l -> StronglySorted N.le (filter p l).
Proof.
  induction 1 as [|d l Hs IH Hd]; cbn; [constructor|].
  destruct (p d); [|exact IH]. constructor; [exact IH|].
  rewrite Forall_forall in *. intros x Hx. apply Hd.
  now apply filter_In in Hx.
Qed.

Lemma advance_queue t st :
  timers (advance t st) = filter (fun x => negb (isDue t x)) (timers st) /\
  clock (advance t st) = N.max (clock st) t.
Proof.
  unfold advance.
  match goal with |- context [fireAll ?l ?s0] =>
    destruct (fireAll_keeps_queue l s0) as [Ht Hc] end.
  now rewrite Ht, Hc.
Qed.

Lemma QueueInvariant_advance t st :
  QueueInvariant st -> QueueInvariant (advance t st).
Proof.
  intros (Ha & Hb & Hc & Hd). unfold QueueInvariant.
  destruct (advance_queue t st) as [Ht Hk]. rewrite Ht, Hk.
  rewrite notifications_advance, dismissals_due.
  change (filter (fun x => negb (isDue t x)) (timers st))
    with (filter (fun x => (fun d => negb (d <=? t)%N) (due x)) (timers st)).
  rewrite dismissalDues_filter.
  split; [|split; [|split]].
  - rewrite Forall_forall in *. intros x Hx. apply filter_In in Hx.
    destruct Hx as [Hx Hlate]. apply negb_true_iff, N.leb_gt in Hlate.
    specialize (Ha x Hx). lia.
  - rewrite <- skipn_map, Hb. symmetry. now apply sorted_later_is_suffix.
  - rewrite Forall_forall in *. intros d Hd'. apply filter_In in Hd'.
    destruct Hd' as [Hd' _]. specialize (Hc d Hd'). lia.
  - now apply StronglySorted_filter.
Qed.

Lemma QueueInvariant_mount t0 rnd : QueueInvariant (mount t0 rnd).
Proof.
  unfold QueueInvariant. cbn. repeat split; constructor.
Qed.

Lemma QueueInvariant_step e st : QueueInvariant st -> QueueInvariant (step e st).
Proof.
  intros H. destruct e; cbn [step].
  - exact (Keeps_addCell type_ content_ index metadata_ st H).
  - exact (Keeps_updateCell cellId updates pushToHistory st H).
  - exact (Keeps_deleteCell cellId st H).
  - exact H.
  - exact (Keeps_executeCell (cells st) cellId st H).
  - exact (Keeps_runAllCells (cells st) st H).
  - exact (Keeps_addNotification _ st H).
  - exact H.
  - exact H.
  - exact H.
  - exact (Keeps_addNotification n st H).
  - exact (Keeps_setActiveCellId v st H).
  - exact (Keeps_setActiveSidebarPanel p st H).
  - now apply QueueInvariant_advance.
Qed.

Lemma QueueInvariant_run events : forall st,
  QueueInvariant st -> QueueInvariant (run events st).
Proof.
  induction events as [|e events IH]; intros st H; [exact H|].
  cbn. apply IH. now apply QueueInvariant_step.
Qed.

(** In every session reached from a mount by calls of the context and the
    passing of time, each notification in the queue was pushed less than
    5000 ms ago, and the pending auto-dismiss timers are, in order, due
    exactly 5000 ms after the pushes of the notifications still queued: the
    timer that drops the oldest notification is always that notification's
    own, so none is dropped early and none stays late. *)
Theorem notifications_live_five_seconds t0 rnd events :
  let st := run events (mount t0 rnd) in
  Forall (fun n => (timestamp n <= clock st)%N /\
                   (clock st < timestamp n + 5000)%N) (notifications st) /\
  map (fun n => (timestamp n + 5000)%N) (notifications st) =
    dismissalDues (timers st) /\
  List.length (notifications st) = dismissals (timers st).
Proof.
  intros st.
  destruct (QueueInvariant_run events _ (QueueInvariant_mount t0 rnd))
    as (Ha & Hb & Hc & _).
  fold st in Ha, Hb, Hc.
  split; [|split; [exact Hb|]].
  - rewrite Forall_forall in *. intros n Hn.
    assert (Hdue : In (timestamp n + 5000)%N (dismissalDues (timers st))).
    { rewrite <- Hb. now apply (in_map (fun n => (timestamp n + 5000)%N)). }
    specialize (Hc _ Hdue). split; [lia|].
    unfold dismissalDues in Hdue. apply in_map_iff in Hdue.
    destruct Hdue as (x & Hx & Hin). apply filter_In in Hin.
    destruct Hin as [Hin _]. specialize (Ha x Hin). lia.
  - unfold dismissals. rewrite <- (length_map due).
    fold (dismissalDues (timers st)). rewrite <- Hb. now rewrite length_map.
Qed.

(** Five seconds without a push empty the queue: from any reached
    session, once the clock is 5000 ms past what it read, no notification
    is left and the status bar reads "Ready". *)
Theorem queue_empty_after_five_idle_seconds t0 rnd events t :
  let st := run events (mount t0 rnd) in
  (clock st + 5000 <= t)%N ->
  notifications (advance t st) = [] /\
  statusBarText (advance t st) = "Ready".
Proof.
  intros st Hlate.
  destruct (QueueInvariant_run events _ (QueueInvariant_mount t0 rnd))
    as (_ & Hb & Hc & _).
  fold st in Hb, Hc.
  assert (Hempty : notifications (advance t st) = []).
  { rewrite notifications_advance, dismissals_due.
    rewrite forallb_filter_id.
    - rewrite <- Hb, length_map. apply skipn_all.
    - apply forallb_forall. intros d Hd. apply N.leb_le.
      rewrite Forall_forall in Hc. specialize (Hc d Hd). lia. }
  split; [exact Hempty|]. unfold statusBarText. now rewrite Hempty.
Qed.

Lemma queue_empty_after_five_idle_seconds_witness :
  statusBarText (run [ERunAllCells; ETimePasses 1700000000800; ESaveNotebook]
                     sampleSession) = "Notebook Saved" /\
  statusBarText
    (advance 1700000005800
       (run [ERunAllCells; ETimePasses 1700000000800; ESaveNotebook]
            sampleSession)) = "Ready".
Proof.
  split; [reflexivity|].
  apply (queue_empty_after_five_idle_seconds 1700000000000 sampleRandom
           [ERunAllCells; ETimePasses 1700000000800; ESaveNotebook]
           1700000005800).
  apply N.leb_le. vm_compute. reflexivity.
Defined.

(** * Properties of the helper functions *)

(** ** [generateUniqueId] *)

Lemma append_cancel_l (p a b : string) : (p ++ a = p ++ b)%string -> a = b.
Proof.
  induction p as [|c p IH]; cbn; intros H; [exact H|].
  injection H as H. now apply IH.
Qed.

Lemma digits_dash_inj d1 : forall d2 r1 r2,
  (NilEmpty.string_of_uint d1 ++ String "-" r1 =
   NilEmpty.string_of_uint d2 ++ String "-" r2)%string ->
  d1 = d2 /\ r1 = r2.
Proof.
  induction d1 as [|d1 IH|d1 IH|d1 IH|d1 IH|d1 IH|d1 IH|d1 IH|d1 IH|d1 IH|d1 IH];
    intros [|d2|d2|d2|d2|d2|d2|d2|d2|d2|d2] r1 r2 H; cbn in H;
    try discriminate H;
    injection H as H;
    try (destruct (IH _ _ _ H) as [-> ->]); now split.
Qed.

Lemma decimal_dash_inj a b r1 r2 :
  (decimal a ++ "-" ++ r1 = decimal b ++ "-" ++ r2)%string ->
  a = b /\ r1 = r2.
Proof.
  unfold decimal. intros H. apply digits_dash_inj in H. destruct H as [H ->].
  split; [|reflexivity]. now apply DecimalN.Unsigned.to_uint_inj.
Qed.

(** Two ids made with the same prefix are the same id exactly when they
    were made at the same clock reading with the same random digits: an id
    is as unique as the pair of its time and its random draw. *)
Theorem generateUniqueId_injective prefix st1 st2 :
  fst (generateUniqueId prefix st1) = fst (generateUniqueId prefix st2) <->
  clock st1 = clock st2 /\ random st1 (draws st1) = random st2 (draws st2).
Proof.
  cbn. split.
  - intros H. apply append_cancel_l in H.
    change (String "-" (decimal (clock st1) ++ String "-" (random st1 (draws st1))))%string
      with ("-" ++ (decimal (clock st1) ++ "-" ++ random st1 (draws st1)))%string in H.
    change (String "-" (decimal (clock st2) ++ String "-" (random st2 (draws st2))))%string
      with ("-" ++ (decimal (clock st2) ++ "-" ++ random st2 (draws st2)))%string in H.
    apply append_cancel_l in H. now apply decimal_dash_inj.
  - intros [-> ->]. reflexivity.
Qed.



(** ** [debounce] *)











(** ** [getMarkdownHeadings] *)

Lemma splitOn_nonempty sep s : splitOn sep s <> [].
Proof.
  destruct s as [|c s]; cbn; [discriminate|].
  destruct (Ascii.eqb c sep); [discriminate|].
  destruct (splitOn sep s); discriminate.
Qed.


Lemma splitOn_line_then s rest :
  noLineFeed s = true ->
  splitOn "010"%char (s ++ String "010"%char rest) =
    s :: splitOn "010"%char rest.
Proof.
  induction s as [|c s IH]; cbn; [reflexivity|].
  intros H. apply andb_true_iff in H. destruct H as [Hc Hs].
  apply negb_true_iff in Hc. rewrite Hc. now rewrite (IH Hs).
Qed.


Lemma leadingHashes_spec line k after :
  leadingHashes line = (k, after) ->
  line = (hashes k ++ after)%string /\
  (forall rest, after <> String "#" rest).
Proof.
  revert k after. induction line as [|c line IH]; cbn; intros k after H.
  - injection H as <- <-. split; [reflexivity|discriminate].
  - destruct (Ascii.eqb_spec c "#"%char) as [->|Hc].
    + destruct (leadingHashes line) as [k' after'] eqn:Hl.
      injection H as <- <-. destruct (IH k' after' eq_refl) as [-> Hafter].
      now split.
    + injection H as <- <-. split; [reflexivity|]. congruence.
Qed.

Lemma leadingHashes_hashes k after :
  (forall rest, after <> String "#" rest) ->
  leadingHashes (hashes k ++ after) = (k, after).
Proof.
  intros Hafter. induction k as [|k IH]; cbn.
  - destruct after as [|c after]; [reflexivity|]. cbn.
    destruct (Ascii.eqb_spec c "#"%char) as [->|_]; [|reflexivity].
    now destruct (Hafter after).
  - now rewrite IH.
Qed.

Lemma whiteSpace_not_hash w : isWhiteSpace w = true -> w <> "#"%char.
Proof. intros H ->. discriminate H. Qed.

(** What the pattern of a heading accepts: one or more [#], one white
    space character, then a text that is not empty and holds no line
    terminator. *)
Lemma matchHeading_spec line k text :
  matchHeading line = Some (k, text) <->
  exists w, line = (hashes k ++ String w text)%string /\
            1 <= k /\ isWhiteSpace w = true /\ text <> EmptyString /\
            allChars (fun a => negb (isLineTerminator a)) text = true.
Proof.
  unfold matchHeading. split.
  - destruct (leadingHashes line) as [k0 after] eqn:Hl.
    apply leadingHashes_spec in Hl. destruct Hl as [-> _].
    destruct k0 as [|k0]; [discriminate|].
    destruct after as [|w text0]; [discriminate|].
    destruct (isWhiteSpace w) eqn:Hw; [|discriminate].
    destruct (String.eqb_spec text0 "") as [|Hne]; [discriminate|].
    destruct (allChars _ text0) eqn:Hall; [|discriminate].
    cbn. intros H. injection H as <- <-.
    exists w. repeat split; [lia|assumption..].
  - intros (w & -> & Hk & Hw & Hne & Hall).
    rewrite leadingHashes_hashes
      by (intros rest H; injection H as H _; now apply (whiteSpace_not_hash w)).
    destruct k as [|k]; [lia|].
    rewrite Hw, Hall. apply String.eqb_neq in Hne. now rewrite Hne.
Qed.

Lemma headingsFrom_In h lines : forall start,
  In h (headingsFrom start lines) <->
  exists i line,
    nth_error lines i = Some line /\
    matchHeading line = Some (level h, headingText h) /\
    headingId h =
      ("heading-" ++ decimal (N.of_nat (start + i)) ++ "-"
       ++ toLowerCase (replaceWhiteSpaceRuns false (headingText h)))%string.
Proof.
  induction lines as [|line lines IH]; intros start; cbn [headingsFrom].
  - split; [contradiction|]. intros (i & l & Hi & _). now destruct i.
  - rewrite in_app_iff, IH. split.
    + intros [Hhead|(i & l & Hi & Hm & Hid)].
      * destruct (matchHeading line) as [[k text]|] eqn:Hm; [|contradiction].
        destruct Hhead as [<-|[]]. exists 0, line. cbn.
        now rewrite Nat.add_0_r.
      * exists (S i), l. rewrite Nat.add_succ_r. now cbn in *.
    + intros ([|i] & l & Hi & Hm & Hid).
      * left. cbn in Hi. injection Hi as ->. rewrite Hm. left.
        rewrite Nat.add_0_r in Hid. destruct h as [hid htext hlevel].
        cbn in *. now subst.
      * right. exists i, l. rewrite Nat.add_succ_r in Hid. now cbn in *.
Qed.



Lemma headingsFrom_ids_distinct lines : forall start,
  NoDup (map headingId (headingsFrom start lines)).
Proof.
  induction lines as [|line lines IH]; intros start; cbn [headingsFrom].
  - constructor.
  - destruct (matchHeading line) as [[k text]|]; cbn [app map]; [|apply IH].
    constructor; [|apply IH].
    intros Hin. apply in_map_iff in Hin. destruct Hin as (h & Hid & Hin).
    apply headingsFrom_In in Hin. destruct Hin as (i & l & _ & _ & Hid').
    rewrite Hid' in Hid. cbn [headingId] in Hid.
    apply append_cancel_l in Hid. apply decimal_dash_inj in Hid.
    destruct Hid as [Hid _]. lia.
Qed.

(** The ids [getMarkdownHeadings] gives to the headings of a document are
    pairwise distinct, also when two headings have the same text. *)
Theorem getMarkdownHeadings_ids_distinct markdownContent :
  NoDup (map headingId (getMarkdownHeadings markdownContent)).
Proof. apply headingsFrom_ids_distinct. Qed.

Lemma allChars_app p a b :
  allChars p (a ++ b) = allChars p a && allChars p b.
Proof.
  induction a as [|c a IH]; cbn; [reflexivity|].
  now rewrite IH, andb_assoc.
Qed.

Lemma suffix_of_last_char a c : forall pre t,
  (a ++ String c EmptyString = pre ++ t)%string -> t <> EmptyString ->
  exists t', t = (t' ++ String c EmptyString)%string.
Proof.
  induction a as [|x a IH]; intros pre t H Hne.
  - destruct pre as [|y pre]; cbn in H.
    + exists EmptyString. now subst.
    + injection H as _ H. destruct pre; destruct t; cbn in H;
        try discriminate; now destruct Hne.
  - destruct pre as [|y pre]; cbn in H.
    + exists (String x a). now subst.
    + injection H as _ H. now apply (IH pre t).
Qed.

Lemma append_snoc p w t :
  (p ++ String w t = (p ++ String w EmptyString) ++ t)%string.
Proof. induction p as [|c p IH]; cbn; [reflexivity|now rewrite IH]. Qed.

Lemma matchHeading_carriage_return line :
  matchHeading (line ++ String "013"%char EmptyString) = None.
Proof.
  destruct (matchHeading _) as [[k text]|] eqn:Hm; [|reflexivity].
  apply matchHeading_spec in Hm.
  destruct Hm as (w & Hline & _ & _ & Hne & Hall).
  rewrite (append_snoc (hashes k) w text) in Hline.
  apply suffix_of_last_char in Hline; [|exact Hne].
  destruct Hline as (t' & ->). rewrite allChars_app in Hall.
  apply andb_true_iff in Hall. destruct Hall as [_ Hall]. discriminate Hall.
Qed.

Lemma concat_empty_cons x xs :
  String.concat EmptyString (x :: xs) = (x ++ String.concat EmptyString xs)%string.
Proof.
  destruct xs as [|y xs]; cbn; [|reflexivity].
  induction x as [|c x IHx]; cbn; [reflexivity|now rewrite <- IHx].
Qed.

Lemma append_crlf l rest :
  ((l ++ String "013"%char (String "010"%char EmptyString)) ++ rest =
   (l ++ String "013"%char EmptyString) ++ String "010"%char rest)%string.
Proof. induction l as [|c l IH]; cbn; [reflexivity|now rewrite IH]. Qed.

Lemma splitOn_crlf lines :
  Forall (fun l => noLineFeed l = true) lines ->
  splitOn "010"%char
    (String.concat EmptyString
       (map (fun l => l ++ String "013"%char (String "010"%char EmptyString))%string
            lines)) =
  map (fun l => l ++ String "013"%char EmptyString)%string lines ++ [EmptyString].
Proof.
  induction 1 as [|l lines Hl Hrest IH]; [reflexivity|].
  cbn [map app]. rewrite concat_empty_cons, append_crlf.
  rewrite splitOn_line_then.
  - now rewrite IH.
  - unfold noLineFeed in *. rewrite allChars_app, Hl. reflexivity.
Qed.

Lemma headingsFrom_none lines : forall start,
  Forall (fun l => matchHeading l = None) lines ->
  headingsFrom start lines = [].
Proof.
  induction lines as [|l lines IH]; intros start H; [reflexivity|].
  inversion H as [|? ? Hl Hrest]; subst. cbn [headingsFrom].
  rewrite Hl. now apply IH.
Qed.

(** A document whose lines all end in carriage return and line feed has
    no heading for [getMarkdownHeadings], whatever the lines hold: the
    carriage return left on each line is not matched by the pattern. *)
Theorem getMarkdownHeadings_crlf_none lines :
  Forall (fun l => noLineFeed l = true) lines ->
  getMarkdownHeadings
    (String.concat EmptyString
       (map (fun l => l ++ String "013"%char (String "010"%char EmptyString))%string
            lines)) = [].
Proof.
  intros Hlines. unfold getMarkdownHeadings. rewrite splitOn_crlf by exact Hlines.
  apply headingsFrom_none. apply Forall_app. split.
  - apply Forall_forall. intros l Hl. apply in_map_iff in Hl.
    destruct Hl as (l0 & <- & _). apply matchHeading_carriage_return.
  - repeat constructor.
Qed.

Lemma getMarkdownHeadings_crlf_none_witness :
  getMarkdownHeadings
    ("# Title" ++ String "013"%char (String "010"%char
       ("## Part" ++ String "013"%char (String "010"%char EmptyString))))%string
  = [] /\
  List.length (getMarkdownHeadings
    ("# Title" ++ String "010"%char ("## Part" ++ String "010"%char EmptyString))%string)
  = 2.
Proof.
  split; [|reflexivity].
  apply (getMarkdownHeadings_crlf_none ["# Title"; "## Part"]).
  repeat constructor.
Defined.

(** ** The outline of the sidebar *)

Lemma eqb_markdown t :
  String.eqb (cellTypeValue t) (cellTypeValue Markdown) = isMarkdown t.
Proof. destruct t; reflexivity. Qed.

Lemma noHash_removeHashes s : noHash (removeHashes s) = true.
Proof.
  unfold noHash. induction s as [|c s IH]; cbn; [reflexivity|].
  destruct (Ascii.eqb c "#") eqn:Hc; [exact IH|]. cbn. now rewrite Hc.
Qed.

Lemma allChars_trimStart p s :
  allChars p s = true -> allChars p (trimStart s) = true.
Proof.
  induction s as [|c s IH]; cbn; [reflexivity|]. intros H.
  destruct (isWhiteSpace c); [|exact H].
  apply andb_true_iff in H. now apply IH.
Qed.

Lemma allChars_trimEnd p s :
  allChars p s = true -> allChars p (trimEnd s) = true.
Proof.
  induction s as [|c s IH]; cbn; [reflexivity|]. intros H.
  apply andb_true_iff in H. destruct H as [Hc Hs]. specialize (IH Hs).
  destruct (trimEnd s) as [|k kept].
  - destruct (isWhiteSpace c); cbn; [reflexivity|now rewrite Hc].
  - cbn in *. now rewrite Hc.
Qed.

Lemma outlineTextOf_good markdown :
  outlineTextOf markdown <> EmptyString /\ noHash (outlineTextOf markdown) = true.
Proof.
  unfold outlineTextOf.
  destruct (String.eqb_spec
              (trim (removeHashes (hd EmptyString (splitOn "010"%char markdown))))
              EmptyString) as [_|Hne].
  - split; [discriminate|reflexivity].
  - split; [exact Hne|]. unfold noHash, trim.
    apply allChars_trimEnd, allChars_trimStart. apply noHash_removeHashes.
Qed.

Lemma outlineItems_spec l :
  (outlineItems l = None <->
   exists c, In c l /\ forall markdown, content c <> AStr markdown) /\
  (forall items, outlineItems l = Some items ->
     map outlineId items = map id l /\
     Forall (fun o => outlineText o <> EmptyString /\
                      noHash (outlineText o) = true) items).
Proof.
  induction l as [|c l [IHnone IHsome]]; cbn [outlineItems].
  - split.
    + split; [discriminate|]. now intros (c & [] & _).
    + intros items H. injection H as <-. now split.
  - destruct (content c) as [| | | |markdown| |] eqn:Hc;
      try (split; [split; [intros _; exists c; split;
                             [now left|intros m; rewrite Hc; discriminate]
                          |reflexivity]
                  |discriminate]).
    destruct (outlineItems l) as [items0|]; cbn [option_map].
    + split.
      * split; [discriminate|]. intros (c' & [<-|Hin] & Hnot).
        -- now destruct (Hnot markdown).
        -- assert (Hf : Some items0 = None)
             by (apply IHnone; now exists c').
           discriminate Hf.
      * intros items H. injection H as <-.
        destruct (IHsome items0 eq_refl) as [Hids Hgood].
        split; [cbn; now rewrite Hids|].
        constructor; [apply outlineTextOf_good|exact Hgood].
    + split; [|discriminate]. split; [|reflexivity]. intros _.
      destruct (proj1 IHnone eq_refl) as (c' & Hin & Hnot).
      exists c'. split; [now right|exact Hnot].
Qed.

(** The outline of the sidebar. It cannot be built (the render throws)
    exactly when some markdown cell has a content that is not a string.
    Otherwise it has one entry per markdown cell, in document order and under
    the cell's id, none being dropped, and every entry's text is non-empty
    and free of [#]. *)
Theorem sidebarOutline_spec l :
  (sidebarOutline l = None <->
   exists c, In c l /\ type c = Markdown /\
             forall markdown, content c <> AStr markdown) /\
  (forall items, sidebarOutline l = Some items ->
     map outlineId items = map id (filter (fun c => isMarkdown (type c)) l) /\
     Forall (fun o => outlineText o <> EmptyString /\
                      noHash (outlineText o) = true) items).
Proof.
  unfold sidebarOutline.
  rewrite (filter_ext _ (fun c => isMarkdown (type c)))
    by (intros c; apply eqb_markdown).
  destruct (outlineItems_spec (filter (fun c => isMarkdown (type c)) l))
    as [Hnone Hsome].
  split.
  - destruct (outlineItems _) as [items0|] eqn:Hitems; cbn [option_map].
    + split; [discriminate|]. intros (c & Hin & Hty & Hnot).
      assert (Hex : exists c, In c (filter (fun c => isMarkdown (type c)) l) /\
                              forall markdown, content c <> AStr markdown).
      { exists c. split; [|exact Hnot]. apply filter_In. split; [exact Hin|].
        now rewrite Hty. }
      apply Hnone in Hex. discriminate Hex.
    + split; [|reflexivity]. intros _.
      destruct (proj1 Hnone eq_refl) as (c & Hin & Hnot).
      apply filter_In in Hin. destruct Hin as [Hin Hty].
      exists c. split; [exact Hin|]. split; [|exact Hnot].
      now destruct (type c).
  - intros items H.
    destruct (outlineItems _) as [items0|] eqn:Hitems; [|discriminate].
    cbn [option_map] in H. injection H as <-.
    destruct (Hsome items0 eq_refl) as [Hids Hgood].
    rewrite forallb_filter_id; [now split|].
    apply forallb_forall. intros o Ho. rewrite Forall_forall in Hgood.
    apply negb_true_iff, String.eqb_neq. now apply Hgood.
Qed.

Lemma sidebarOutline_spec_witness :
  sidebarOutline (cells sampleSession) =
    Some [{| outlineId := id sampleMarkdownCell;
             outlineText := "Universal Notebook" |}] /\
  sidebarOutline
    (cells (call (fun ctx => ctx_addCell ctx Markdown (AObj []) None None)
                 sampleSession)) = None.
Proof.
  split; [reflexivity|].
  apply (sidebarOutline_spec
           (cells (call (fun ctx => ctx_addCell ctx Markdown (AObj []) None None)
                        sampleSession))).
  exists (newCellOf sampleSession Markdown (AObj []) None).
  split; [do 4 right; left; reflexivity|].
  split; [reflexivity|intros markdown H; discriminate H].
Defined.

(** ** [parseCodeOutputs] *)

Lemma startsWith_brace_not_image rawOutput :
  startsWith "{" rawOutput = true -> startsWith "IMAGE_BASE64:" rawOutput = false.
Proof.
  destruct rawOutput as [|c rest]; [discriminate|].
  unfold startsWith. cbn [String.prefix].
  destruct (ascii_dec "{" c) as [<-|_]; intros H; [|discriminate H].
  destruct (ascii_dec "I" "{") as [Heq|_]; [discriminate Heq|reflexivity].
Qed.

Lemma decimalZ_of_nat n : decimalZ (Z.of_nat n) = decimal (N.of_nat n).
Proof.
  unfold decimalZ, decimal. rewrite <- nat_N_Z.
  now destruct (N.of_nat n).
Qed.

(** [parseCodeOutputs] never throws and never returns anything but one
    output, whatever the text, and whatever [JSON.parse] does with it. *)
Theorem parseCodeOutputs_one_output JSON_parse typeErrorMessage rawOutput language_ :
  exists output,
    parseCodeOutputs JSON_parse typeErrorMessage rawOutput language_ = [output].
Proof.
  unfold parseCodeOutputs, tryParse, plainOutputs.
  destruct (startsWith "{" rawOutput && endsWith "}" rawOutput).
  - destruct (JSON_parse rawOutput) as [syntaxError|parsed]; [eexists; reflexivity|].
    destruct (isDataframe parsed).
    + destruct (lengthOf _); eexists; reflexivity.
    + destruct (startsWith "IMAGE_BASE64:" rawOutput); eexists; reflexivity.
  - destruct (startsWith "IMAGE_BASE64:" rawOutput); eexists; reflexivity.
Qed.

(** Text that is not wrapped in braces never reaches [JSON.parse]. With
    the prefix "IMAGE_BASE64:" it becomes one image output that holds exactly
    what follows the prefix; otherwise it becomes one stdout stream output
    that holds the text as it stands, the empty text included. *)
Theorem parseCodeOutputs_plain JSON_parse typeErrorMessage language_ :
  (forall payload,
     parseCodeOutputs JSON_parse typeErrorMessage
       ("IMAGE_BASE64:" ++ payload) language_ = [imageOutput payload]) /\
  (forall rawOutput,
     startsWith "{" rawOutput && endsWith "}" rawOutput = false ->
     startsWith "IMAGE_BASE64:" rawOutput = false ->
     parseCodeOutputs JSON_parse typeErrorMessage rawOutput language_ =
       [streamOutput rawOutput]) /\
  parseCodeOutputs JSON_parse typeErrorMessage EmptyString language_ =
    [streamOutput EmptyString].
Proof.
  split; [|split; [|reflexivity]].
  - intros payload. unfold parseCodeOutputs, tryParse, plainOutputs.
    change (startsWith "{" ("IMAGE_BASE64:" ++ payload)) with false.
    cbn [andb].
    assert (Hprefix : startsWith "IMAGE_BASE64:" ("IMAGE_BASE64:" ++ payload) = true).
    { unfold startsWith. cbn. now destruct payload. }
    now rewrite Hprefix.
  - intros rawOutput Hbraces Himage.
    unfold parseCodeOutputs, tryParse, plainOutputs.
    now rewrite Hbraces, Himage.
Qed.

Lemma parseCodeOutputs_plain_witness :
  parseCodeOutputs sampleParse sampleTypeErrorMessage "42" "python" =
    [streamOutput "42"] /\
  parseCodeOutputs sampleParse sampleTypeErrorMessage "{not closed" "python" =
    [streamOutput "{not closed"].
Proof.
  destruct (parseCodeOutputs_plain sampleParse sampleTypeErrorMessage "python")
    as (_ & Htext & _).
  split; apply Htext; reflexivity.
Defined.

(** A data frame: when the text is wrapped in braces and parses to an
    object of type "dataframe" whose data is an array, the one output carries
    that array and the summary "DataFrame (n rows, k cols)", n being the
    number of rows and k the number of keys of the first row (0 when there is
    no row or the first row is falsy). *)
Theorem parseCodeOutputs_dataframe JSON_parse typeErrorMessage rawOutput
    language_ parsed rows :
  startsWith "{" rawOutput = true -> endsWith "}" rawOutput = true ->
  JSON_parse rawOutput = inr parsed ->
  lookupProp "type" parsed = Some (AStr "dataframe") ->
  lookupProp "data" parsed = Some (AArr rows) ->
  parseCodeOutputs JSON_parse typeErrorMessage rawOutput language_ =
    [dataframeOutput (AArr rows)
       ("DataFrame (" ++ decimal (N.of_nat (List.length rows)) ++ " rows, "
        ++ decimal (N.of_nat
             match rows with
             | first :: _ => if isTruthy first then keyCount first else 0
             | [] => 0
             end) ++ " cols)")%string].
Proof.
  intros Hopen Hclose Hparse Htype Hdata.
  unfold parseCodeOutputs, tryParse, isDataframe.
  rewrite Hopen, Hclose, Hparse, Htype, Hdata.
  cbn [andb String.eqb lengthOf firstOf toStringAny].
  change (String.eqb "dataframe" "dataframe") with true. cbn iota.
  rewrite decimalZ_of_nat.
  destruct rows as [|first rest]; [reflexivity|].
  now destruct (isTruthy first).
Qed.

Lemma parseCodeOutputs_dataframe_witness :
  parseCodeOutputs sampleParse sampleTypeErrorMessage sampleDataframeText "python" =
    [dataframeOutput
       (AArr [AObj [("a", ANum 1); ("b", ANum 2)];
              AObj [("a", ANum 3); ("b", ANum 4)]])
       "DataFrame (2 rows, 2 cols)"].
Proof.
  apply (parseCodeOutputs_dataframe sampleParse sampleTypeErrorMessage
           sampleDataframeText "python"
           [("type", AStr "dataframe");
            ("data", AArr [AObj [("a", ANum 1); ("b", ANum 2)];
                           AObj [("a", ANum 3); ("b", ANum 4)]])]);
    reflexivity.
Defined.

(** Text wrapped in braces: what goes wrong is turned into one
    "Parsing Error" output that quotes the error's message and the raw
    text. That holds when [JSON.parse] rejects the text, and when the object
    is of type "dataframe" but has no data (or [null]). An object that is not
    of type "dataframe" is shown as plain text. *)
Theorem parseCodeOutputs_failures_absorbed JSON_parse typeErrorMessage rawOutput
    language_ :
  startsWith "{" rawOutput = true -> endsWith "}" rawOutput = true ->
  (forall syntaxError, JSON_parse rawOutput = inl syntaxError ->
     parseCodeOutputs JSON_parse typeErrorMessage rawOutput language_ =
       [parsingError syntaxError rawOutput]) /\
  (forall parsed, JSON_parse rawOutput = inr parsed ->
     lookupProp "type" parsed = Some (AStr "dataframe") ->
     lookupProp "data" parsed = None \/ lookupProp "data" parsed = Some ANull ->
     exists nothing,
       (nothing = AUndefined \/ nothing = ANull) /\
       parseCodeOutputs JSON_parse typeErrorMessage rawOutput language_ =
         [parsingError (typeErrorMessage nothing) rawOutput]) /\
  (forall parsed, JSON_parse rawOutput = inr parsed ->
     isDataframe parsed = false ->
     parseCodeOutputs JSON_parse typeErrorMessage rawOutput language_ =
       [streamOutput rawOutput]).
Proof.
  intros Hopen Hclose. unfold parseCodeOutputs, tryParse.
  rewrite Hopen, Hclose. cbn [andb].
  split; [|split].
  - intros syntaxError Hparse. now rewrite Hparse.
  - intros parsed Hparse Htype Hdata. rewrite Hparse. unfold isDataframe.
    rewrite Htype. change (String.eqb "dataframe" "dataframe") with true.
    cbn iota. destruct Hdata as [Hdata|Hdata]; rewrite Hdata; cbn.
    + exists AUndefined. split; [now left|reflexivity].
    + exists ANull. split; [now right|reflexivity].
  - intros parsed Hparse Hno. rewrite Hparse, Hno. unfold plainOutputs.
    now rewrite (startsWith_brace_not_image _ Hopen).
Qed.

Lemma parseCodeOutputs_failures_absorbed_witness :
  parseCodeOutputs sampleParse sampleTypeErrorMessage "{oops}" "python" =
    [parsingError "Unexpected token" "{oops}"] /\
  parseCodeOutputs sampleParse sampleTypeErrorMessage "{}" "python" =
    [streamOutput "{}"].
Proof.
  destruct (parseCodeOutputs_failures_absorbed sampleParse sampleTypeErrorMessage
              "{oops}" "python" eq_refl eq_refl) as (Hreject & _ & _).
  destruct (parseCodeOutputs_failures_absorbed sampleParse sampleTypeErrorMessage
              "{}" "python" eq_refl eq_refl) as (_ & _ & Hother).
  split; [now apply Hreject|].
  now apply (Hother []).
Defined.

(** ** Deleting a cell that is running *)

Lemma advance_keeps_ids t st :
  map id (cells (advance t st)) = map id (cells st).
Proof.
  unfold advance.
  match goal with |- context [fireAll ?l ?s0] =>
    destruct (fireAll_keeps_documents l s0) as (H1 & _) end.
  exact H1.
Qed.

Lemma ids_after_marking_and_deleting (l : list EnhancedCell) cellId :
  map id (filter (fun c => negb (String.eqb (id c) cellId))
            (map (fun c => if String.eqb (id c) cellId
                           then spread c runningUpdates else c) l)) =
  map id (filter (fun c => negb (String.eqb (id c) cellId)) l).
Proof.
  induction l as [|c l IH]; [reflexivity|]. cbn [map filter].
  destruct (String.eqb (id c) cellId) eqn:Hc.
  - change (id (spread c runningUpdates)) with (id c). rewrite Hc. exact IH.
  - rewrite Hc. cbn [negb map]. now rewrite IH.
Qed.

(** A cell deleted while its execution is pending stays deleted: when the
    completion timer fires, or any other timer, no cell with that id comes
    back and the sequence keeps the length it had after the deletion. *)
Theorem deleted_cell_stays_deleted st cellId t :
  let st1 := call (fun ctx => ctx_executeCell ctx cellId) st in
  let st2 := call (fun ctx => ctx_deleteCell ctx cellId) st1 in
  In cellId (executionsScheduled (timers st2)) /\
  ~ In cellId (map id (cells (advance t st2))) /\
  map id (cells (advance t st2)) =
    map id (filter (fun c => negb (String.eqb (id c) cellId)) (cells st)).
Proof.
  intros st1 st2.
  assert (Hst1 : st1 = exec (executeCell (cells st) cellId) st) by reflexivity.
  rewrite executeCell_closed in Hst1.
  assert (Hst2 : st2 = exec (deleteCell cellId) st1) by reflexivity.
  rewrite deleteCell_closed in Hst2.
  assert (Hids : map id (cells (advance t st2)) =
            map id (filter (fun c => negb (String.eqb (id c) cellId)) (cells st))).
  { rewrite advance_keeps_ids.
    rewrite Hst2. cbn [cells]. rewrite Hst1. cbn [cells].
    apply ids_after_marking_and_deleting. }
  split; [|split; [|exact Hids]].
  - rewrite Hst2. cbn [timers]. rewrite Hst1. cbn [timers].
    unfold executionsScheduled. rewrite !flat_map_app, !in_app_iff.
    left. right. cbn. auto.
  - rewrite Hids. intros Hin. apply in_map_iff in Hin.
    destruct Hin as (c & Hid & Hin). apply filter_In in Hin.
    destruct Hin as [_ Hne]. apply negb_true_iff, String.eqb_neq in Hne.
    contradiction.
Qed.

End Notebook.





